(** * Amazon invoice downloader: traversal, extraction and acquisition logic

    A shallow embedding of [src/amazon_invoice_downloader/cli/__init__.py]
    and the properties of its control logic.

    Conventions of the embedding.
    - Python [str] values are Rocq strings holding ASCII text; a byte above
      127 is an opaque character that is neither a letter, a digit nor
      white space.
    - Python exceptions are values of [exn]; a computation that may raise
      returns a [res].  Effects on the outside world (the download folder,
      the browser's pages, standard output) are threaded through a [world]
      by the monad [M]; what was done before an exception was raised stays
      done.
    - What the browser answers (texts of the spans of an order card, what a
      click, a fetch or a navigation does) is input data of the model.
    - [sleep()] only waits and is left out. *)

From Stdlib Require Import ZArith Ascii String List DecimalString.
From stdpp Require Import base option list sorting gmap strings.

Local Open Scope Z_scope.

(** ** Results and exceptions *)

(** The exception classes the program meets; every one derives from
    Python's [Exception].  The string is the message, [str(e)]. *)
Inductive exn : Type :=
| IndexError (msg : string)
| ValueError (msg : string)
| AttributeError (msg : string)
| TimeoutError (msg : string)
| PlaywrightError (msg : string)
| OSError (msg : string).

Definition str_of_exn (e : exn) : string :=
  match e with
  | IndexError m | ValueError m | AttributeError m
  | TimeoutError m | PlaywrightError m | OSError m => m
  end.

Inductive res (A : Type) : Type :=
| Ok (a : A)
| Raise (e : exn).
Arguments Ok {A} a.
Arguments Raise {A} e.

Definition res_bind {A B} (r : res A) (k : A → res B) : res B :=
  match r with
  | Ok a => k a
  | Raise e => Raise e
  end.

#[local] Instance res_ret : MRet res := @Ok.
#[local] Instance res_mbind : MBind res := λ A B k r, res_bind r k.

(** ** Python's string methods, on ASCII text *)
Module Py.

Definition code (c : ascii) : N := N_of_ascii c.

(** [str.isspace] on one ASCII character: TAB, LF, VT, FF, CR, the four
    separators FS, GS, RS, US and the space. *)
Definition isspace (c : ascii) : bool :=
  let n := code c in
  ((9 <=? n) && (n <=? 13) || (28 <=? n) && (n <=? 32))%N.

Definition isdigit (c : ascii) : bool :=
  let n := code c in ((48 <=? n) && (n <=? 57))%N.

Definition isupper (c : ascii) : bool :=
  let n := code c in ((65 <=? n) && (n <=? 90))%N.

Definition lower_char (c : ascii) : ascii :=
  if isupper c then ascii_of_N (code c + 32) else c.

(** [s.lower()] *)
Fixpoint lower (s : string) : string :=
  match s with
  | EmptyString => EmptyString
  | String c s' => String (lower_char c) (lower s')
  end.

(** [s.lstrip()] *)
Fixpoint lstrip (s : string) : string :=
  match s with
  | EmptyString => EmptyString
  | String c s' => if isspace c then lstrip s' else s
  end.

(** [s.rstrip()]: a character is dropped when it is white space and
    nothing is left after it. *)
Fixpoint rstrip (s : string) : string :=
  match s with
  | EmptyString => EmptyString
  | String c s' =>
      match rstrip s' with
      | EmptyString => if isspace c then EmptyString else String c EmptyString
      | r => String c r
      end
  end.

(** [s.strip()] *)
Definition strip (s : string) : string := rstrip (lstrip s).

(** No character of [s] is white space. *)
Fixpoint no_space (s : string) : bool :=
  match s with
  | EmptyString => true
  | String c s' => negb (isspace c) && no_space s'
  end.

(** [s.startswith(p)] *)
Definition startswith (s p : string) : bool := String.prefix p s.

(** [sub in s] *)
Definition contains (sub s : string) : bool :=
  match String.index 0 sub s with Some _ => true | None => false end.

(** [s.replace(c, "")] for a one-character [c]. *)
Fixpoint remove_char (c : ascii) (s : string) : string :=
  match s with
  | EmptyString => EmptyString
  | String d s' =>
      if Ascii.eqb c d then remove_char c s' else String d (remove_char c s')
  end.

(** [s.split(c)] for a one-character separator: never empty, one more
    piece than there are separators. *)
Fixpoint split (c : ascii) (s : string) : list string :=
  match s with
  | EmptyString => [EmptyString]
  | String d s' =>
      match split c s' with
      | [] => [EmptyString]
      | p :: ps => if Ascii.eqb c d then EmptyString :: p :: ps
                   else String d p :: ps
      end
  end.

Fixpoint all_digits (s : string) : bool :=
  match s with
  | EmptyString => true
  | String c s' => isdigit c && all_digits s'
  end.

(** [s.isnumeric()]: at least one character, all numeric. *)
Definition isnumeric (s : string) : bool :=
  match s with
  | EmptyString => false
  | _ => all_digits s
  end.

Definition digit_val (c : ascii) : Z := Z.of_N (code c) - 48.

Fixpoint int_acc (acc : Z) (s : string) : Z :=
  match s with
  | EmptyString => acc
  | String c s' => int_acc (10 * acc + digit_val c) s'
  end.

(** [int(s)] for a string of decimal digits, which white space may
    surround. *)
Definition int (s : string) : Z := int_acc 0 (strip s).

(** The longest text [int] converts: beyond it (CPython's default limit)
    the conversion raises [ValueError]. *)
Definition int_max_str_digits : nat := 4300.

(** [int(s)] with its limit, for a string of decimal digits of any
    length. *)
Definition int_checked (s : string) : res Z :=
  if (int_max_str_digits <? String.length (strip s))%nat then
    Raise (ValueError "Exceeds the limit (4300 digits) for integer string conversion")
  else Ok (int s).

Definition digit_char (d : Z) : ascii := ascii_of_N (Z.to_N d + 48).

(** A number below 100 on two digits, one below 10000 on four: the
    [%m], [%d] and [%Y] of [strftime]. *)
Definition pad2 (n : Z) : string :=
  String (digit_char (n / 10)) (String (digit_char (n mod 10)) EmptyString).

Definition pad4 (n : Z) : string := pad2 (n / 100) +:+ pad2 (n mod 100).

(** [str(n)] for an integer. *)
Definition str_int (n : Z) : string :=
  DecimalString.NilZero.string_of_int (Z.to_int n).

End Py.

(** ** Order identifier: [get_order_id] *)

Definition unknown_order_id : string := "unknown_order_id".

Definition index_out_of_range : exn := IndexError "list index out of range".

(** The test of line 118 on the text of one span. *)
Definition is_order_label (s : string) : bool :=
  Py.startswith (Py.lower (Py.strip s)) "order #".

(** [for i in range(len(spans))], as a loop over the indices. *)
Fixpoint get_order_id_loop (spans : list string) (indices : list nat)
  : res string :=
  match indices with
  | [] => Ok unknown_order_id
  | i :: rest =>
      match spans !! i with
      | None => Raise index_out_of_range
      | Some s =>
          let text := Py.strip s in
          if Py.startswith (Py.lower text) "order #" then
            match spans !! (i + 1)%nat with
            | Some t => Ok (Py.strip t)
            | None => Raise index_out_of_range
            end
          else get_order_id_loop spans rest
      end
  end.

Definition get_order_id (spans : list string) : res string :=
  get_order_id_loop spans (seq 0 (length spans)).

(** The same scan by recursion on the spans: the first label decides. *)
Fixpoint scan_spans (spans : list string) : res string :=
  match spans with
  | [] => Ok unknown_order_id
  | s :: rest =>
      if is_order_label s then
        match rest with
        | t :: _ => Ok (Py.strip t)
        | [] => Raise index_out_of_range
        end
      else scan_spans rest
  end.


(** ** Dates: [datetime.strptime], [strftime] and comparison *)

Record date : Type := Date { year : Z; month : Z; day : Z }.

Module Datetime.

(** A regular expression as the backtracking matcher it compiles to: all
    ways of matching a prefix, each with the matched text and what is left,
    in the order in which the engine tries them.  The head of the list is
    the match [re.match] returns. *)
Definition re : Type := string → list (string * string).

Definition re_class (p : ascii → bool) : re := λ s,
  match s with
  | String c r => if p c then [(String c EmptyString, r)] else []
  | EmptyString => []
  end.

Definition re_range (lo hi : ascii) : re :=
  re_class (λ c, (Py.code lo <=? Py.code c)%N && (Py.code c <=? Py.code hi)%N).

Definition re_char (a : ascii) : re := re_class (Ascii.eqb a).

Definition re_seq (a b : re) : re := λ s,
  x ← a s; y ← b x.2; [(x.1 +:+ y.1, y.2)].

Definition re_alt (a b : re) : re := λ s, a s ++ b s.

Definition re_none : re := λ _, [].

(** A literal word under [re.IGNORECASE]. *)
Definition re_word (w : string) : re := λ s,
  let n := String.length w in
  let head := String.substring 0 n s in
  if String.eqb (Py.lower head) (Py.lower w) && (String.length head =? n)%nat
  then [(head, String.substring n (String.length s - n) s)] else [].

Definition cons_fst (c : ascii) (x : string * string) : string * string :=
  (String c x.1, x.2).

(** [\s*] and [\s+], greedy: the longest run first. *)
Fixpoint re_spaces0 (s : string) : list (string * string) :=
  match s with
  | String c r =>
      if Py.isspace c then map (cons_fst c) (re_spaces0 r) ++ [(EmptyString, s)]
      else [(EmptyString, s)]
  | EmptyString => [(EmptyString, EmptyString)]
  end.

Definition re_spaces : re := λ s,
  match s with
  | String c r => if Py.isspace c then map (cons_fst c) (re_spaces0 r) else []
  | EmptyString => []
  end.

Definition re_digit : re := re_class Py.isdigit.

(** [%Y]: [\d\d\d\d] *)
Definition re_Y : re := re_seq re_digit (re_seq re_digit (re_seq re_digit re_digit)).

(** [%m]: [1[0-2]|0[1-9]|[1-9]] *)
Definition re_m : re :=
  re_alt (re_seq (re_char "1") (re_range "0" "2"))
    (re_alt (re_seq (re_char "0") (re_range "1" "9")) (re_range "1" "9")).

(** [%d]: [3[0-1]|[1-2]\d|0[1-9]|[1-9]| [1-9]] *)
Definition re_d : re :=
  re_alt (re_seq (re_char "3") (re_range "0" "1"))
    (re_alt (re_seq (re_range "1" "2") re_digit)
       (re_alt (re_seq (re_char "0") (re_range "1" "9"))
          (re_alt (re_range "1" "9") (re_seq (re_char " ") (re_range "1" "9"))))).

(** The full month names of the C locale, longest first, as [_strptime]
    orders the alternatives of [%B]. *)
Definition month_names : list (string * Z) :=
  [("september", 9); ("february", 2); ("november", 11); ("december", 12);
   ("january", 1); ("october", 10); ("august", 8); ("march", 3);
   ("april", 4); ("june", 6); ("july", 7); ("may", 5)].

Definition re_B : re :=
  foldr (λ nm acc, re_alt (re_word nm.1) acc) re_none month_names.

Definition month_of_name (w : string) : Z :=
  match list_find (λ nm, nm.1 = Py.lower w) month_names with
  | Some (_, (_, m)) => m
  | None => 0
  end.

Definition is_leap (y : Z) : bool :=
  (y mod 4 =? 0) && (negb (y mod 100 =? 0) || (y mod 400 =? 0)).

Definition days_in_month (y m : Z) : Z :=
  if m =? 2 then (if is_leap y then 29 else 28)
  else if (m =? 4) || (m =? 6) || (m =? 9) || (m =? 11) then 30
  else 31.

(** [datetime(y, m, d)], with the checks of the constructor. *)
Definition make (y m d : Z) : res date :=
  if negb ((1 <=? y) && (y <=? 9999)) then
    Raise (ValueError ("year " +:+ Py.str_int y +:+ " is out of range"))
  else if negb ((1 <=? m) && (m <=? 12)) then
    Raise (ValueError "month must be in 1..12")
  else if negb ((1 <=? d) && (d <=? days_in_month y m)) then
    Raise (ValueError "day is out of range for month")
  else Ok (Date y m d).

Definition no_match (s fmt : string) : exn :=
  ValueError ("time data '" +:+ s +:+ "' does not match format '" +:+ fmt +:+ "'").

Definition unconverted (rest : string) : exn :=
  ValueError ("unconverted data remains: " +:+ rest).

(** What [_strptime] does with the first match: all of the input must be
    consumed, then the date is built. *)
Definition finish (s fmt : string) (found : list ((Z * Z * Z) * string))
  : res date :=
  match found with
  | [] => Raise (no_match s fmt)
  | ((y, m, d), rest) :: _ =>
      match rest with
      | EmptyString => make y m d
      | _ => Raise (unconverted rest)
      end
  end.

(** [datetime.strptime(s, "%Y%m%d")] *)
Definition strptime_compact (s : string) : res date :=
  finish s "%Y%m%d"
    (y ← re_Y s; m ← re_m y.2; d ← re_d m.2;
     [((Py.int y.1, Py.int m.1, Py.int d.1), d.2)]).

(** [datetime.strptime(s, "%B %d, %Y")]: the blanks of the format stand
    for [\s+]. *)
Definition strptime_long (s : string) : res date :=
  finish s "%B %d, %Y"
    (b ← re_B s; _1 ← re_spaces b.2; d ← re_d _1.2; _2 ← re_char "," d.2;
     _3 ← re_spaces _2.2; y ← re_Y _3.2;
     [((Py.int y.1, month_of_name b.1, Py.int d.1), y.2)]).

(** [d.strftime("%Y-%m-%d")], with the C library's [%Y]: the year in
    decimal, not padded, so on four digits from the year 1000 on. *)
Definition strftime_iso (d : date) : string :=
  Py.str_int (year d) +:+ "-" +:+ Py.pad2 (month d) +:+ "-" +:+ Py.pad2 (day d).

(** Comparison of two [datetime] at midnight: by year, month, day. *)
Definition compare (a b : date) : comparison :=
  match year a ?= year b with
  | Eq => match month a ?= month b with
          | Eq => day a ?= day b
          | c => c
          end
  | c => c
  end.

Definition ltb (a b : date) : bool :=
  match compare a b with Lt => true | _ => false end.

Definition gtb (a b : date) : bool := ltb b a.

End Datetime.


(** ** The date window (lines 244-253 of [run]) *)

(** The command-line arguments the control logic reads, as [docopt]
    returns them. *)
Record args : Type := Args {
  arg_date_range : option string;   (* args["--date-range"] *)
  arg_year : string;                (* args["--year"], default "<CUR_YEAR>" *)
  arg_type : string                 (* the invoice type, once resolved *)
}.

(** [a, b = l]: unpacking into two names. *)
Definition unpack2 (l : list string) : res (string * string) :=
  match l with
  | [a; b] => Ok (a, b)
  | _ :: _ :: _ :: _ => Raise (ValueError "too many values to unpack (expected 2)")
  | [_] => Raise (ValueError "not enough values to unpack (expected 2, got 1)")
  | [] => Raise (ValueError "not enough values to unpack (expected 2, got 0)")
  end.

(** A Python string is true when it is not empty, [None] is false. *)
Definition truthy (o : option string) : bool :=
  match o with
  | Some (String _ _) => true
  | _ => false
  end.

(** The two texts handed to [strptime]; [now_year] is
    [datetime.now().year]. *)
Definition window_texts (a : args) (now_year : Z) : res (string * string) :=
  if truthy (arg_date_range a) then
    unpack2 (Py.split "-" (default EmptyString (arg_date_range a)))
  else if negb (String.eqb (arg_year a) "<CUR_YEAR>") then
    Ok (arg_year a +:+ "0101", arg_year a +:+ "1231")
  else
    let year := Py.str_int now_year in
    Ok (year +:+ "0101", year +:+ "1231").

Definition resolve_window (a : args) (now_year : Z) : res (date * date) :=
  texts ← window_texts a now_year;
  start_date ← Datetime.strptime_compact texts.1;
  end_date ← Datetime.strptime_compact texts.2;
  Ok (start_date, end_date).

(** ** Selection of the years (lines 346-355 of [run]) *)

(** Descending order of strings, the order of [sort(reverse=True)]. *)
Definition str_ge (a b : string) : Prop := String.le b a.

#[local] Instance str_ge_dec : RelDecision str_ge.
Proof. intros a b. unfold str_ge. apply _. Defined.


(** The comprehension of line 354: the labels are converted in order, and
    a conversion that raises ends it. *)
Fixpoint years_in_window (start_date end_date : date) (years : list string)
  : res (list string) :=
  match years with
  | [] => Ok []
  | y :: rest =>
      n ← Py.int_checked y;
      kept ← years_in_window start_date end_date rest;
      Ok (if (year start_date <=? n) && (n <=? year end_date) then y :: kept
          else kept)
  end.

Definition select_years (labels : list string) (start_date end_date : date)
  : res (list string) :=
  let years := List.filter Py.isnumeric labels in
  years ← years_in_window start_date end_date years;
  Ok (merge_sort str_ge years).


(** ** The outside world and the monad of effects *)

(** The outcome of an acquisition method (the enumeration [ret]). *)
Inductive ret : Type := SUCCESS | FAILURE | SKIPPED.

(** The two acquisition methods, by name. *)
Inductive method : Type := by_invoice | by_summary.

#[local] Instance ret_eq_dec : EqDecision ret.
Proof. solve_decision. Defined.

#[local] Instance method_eq_dec : EqDecision method.
Proof. solve_decision. Defined.

(** Observations kept for the proofs only: each test of
    [os.path.isfile], and each call of a method by the chain with what
    came out of it. *)
Inductive event : Type :=
| EvIsFile (path : string)
| EvCall (m : method) (file_name : string) (outcome : res ret).

Record world : Type := World {
  files : gmap string string;   (* regular files, path to content *)
  open_pages : list nat;        (* pages opened by [context.new_page()] *)
  next_page : nat;              (* the next page handle *)
  stdout : list string;         (* lines printed, oldest first *)
  journal : list event          (* observations, oldest first *)
}.

Definition M (A : Type) : Type := world → world * res A.

Definition pure {A} (a : A) : M A := λ w, (w, Ok a).

Definition bind {A B} (m : M A) (k : A → M B) : M B := λ w,
  match m w with
  | (w', Ok a) => k a w'
  | (w', Raise e) => (w', Raise e)
  end.

(** A value or an exception computed without effect. *)
Definition lift {A} (r : res A) : M A := λ w, (w, r).

(** [try: m / except Exception as e:], handing the exception to the
    caller as a value. *)
Definition try {A} (m : M A) : M (res A) := λ w,
  let (w', r) := m w in (w', Ok r).

#[local] Instance M_ret : MRet M := @pure.
#[local] Instance M_bind : MBind M := λ A B k m, bind m k.

Definition print (line : string) : M unit := λ w,
  (World (files w) (open_pages w) (next_page w) (stdout w ++ [line]) (journal w),
   Ok tt).

Definition observe (e : event) : M unit := λ w,
  (World (files w) (open_pages w) (next_page w) (stdout w) (journal w ++ [e]),
   Ok tt).

(** [os.path.isfile(path)] *)
Definition isfile (path : string) : M bool := λ w,
  (World (files w) (open_pages w) (next_page w) (stdout w)
     (journal w ++ [EvIsFile path]),
   Ok (bool_decide (is_Some (files w !! path)))).

(** What the file system does with a write: the file is written; or the
    write raises and no file is made; or it raises after the file was
    made, which then holds what had been written so far. *)
Inductive write_outcome : Type :=
| Written
| Refused (e : exn)
| Cut_short (partial : string) (e : exn).

(** [Path(path).write_bytes(content)], and the file [page.pdf(path=...)]
    leaves. *)
Definition write_file (outcome : write_outcome) (path content : string)
  : M unit := λ w,
  match outcome with
  | Written =>
      (World (<[path := content]> (files w)) (open_pages w) (next_page w)
         (stdout w) (journal w),
       Ok tt)
  | Refused e => (w, Raise e)
  | Cut_short partial e =>
      (World (<[path := partial]> (files w)) (open_pages w) (next_page w)
         (stdout w) (journal w),
       Raise e)
  end.

(** [context.new_page()] *)
Definition new_page : M nat := λ w,
  (World (files w) (open_pages w ++ [next_page w]) (S (next_page w))
     (stdout w) (journal w),
   Ok (next_page w)).

(** [p.close()] *)
Definition close_page (p : nat) : M unit := λ w,
  (World (files w) (List.filter (λ q, negb (q =? p)%nat) (open_pages w))
     (next_page w) (stdout w) (journal w),
   Ok tt).

(** ** What the browser answers *)

(** An HTTP response, as [page.request.get] returns it. *)
Record response : Type := Response {
  resp_ok : bool;
  resp_status : Z;
  resp_status_text : string;
  resp_content_type : option string;   (* headers.get("content-type") *)
  resp_body : res string               (* body() *)
}.

(** One order card of the listing. *)
Record order_card : Type := OrderCard {
  spans : list string;                 (* inner_text() of each span *)
  invoice_click : res unit;            (* click on the link "Invoice" *)
  popover_wait : res unit;             (* popover.wait_for(state="visible") *)
  invoice_href : res (option string);  (* href of the link "Invoice" *)
  summary_href : res (option string)   (* href of "Printable Order Summary" *)
}.

(** The account behind the browser context, and the disk the artifacts
    are saved to. *)
Record browser : Type := Browser {
  time_filter_text : string;                  (* text of select#time-filter *)
  listing : string → list (list order_card);  (* pages of cards of a year *)
  request_get : string → res response;
  goto : string → res unit;
  wait_for_load_state : string → res unit;
  last_four_digits : string → string;         (* what get_last_four finds *)
  pdf : string → res string;                  (* the page rendered to PDF *)
  disk_write : string → string → write_outcome (* a write of a content at a path *)
}.

(** The module-level list [cards]. *)
Definition cards : list string := ["all"].

Section Core.

(** [urllib.parse.urljoin] on a base and a reference that is not
    empty, and the browser context. *)
Context (urljoin_ref : string → string → string) (context : browser).

(** [urljoin(url, href)]: without a reference the base is returned. *)
Definition urljoin (url : string) (href : option string) : string :=
  match href with
  | Some (String c r) => urljoin_ref url (String c r)
  | _ => url
  end.

(** ** The acquisition methods *)

Definition download_invoice (url : string) (card : order_card)
  (file_name : string) : M ret :=
  lift (invoice_click card) ;;
  lift (popover_wait card) ;;
  href ← lift (invoice_href card);
  let link := urljoin url href in
  invoice_page ← new_page;
  resp ← lift (request_get context link);
  let ct := Py.lower (default EmptyString (resp_content_type resp)) in
  if negb (Py.contains "pdf" ct) || negb (resp_ok resp) then
    print ("Download failed: " +:+ Py.str_int (resp_status resp) +:+ " "
           +:+ resp_status_text resp +:+ ", content-type: " +:+ ct) ;;
    close_page invoice_page ;;
    pure FAILURE
  else
    body ← lift (resp_body resp);
    write_file (disk_write context file_name body) file_name body ;;
    close_page invoice_page ;;
    pure SUCCESS.

Definition get_last_four (link : string) : M string :=
  pure (last_four_digits context link).

Definition download_summary (url : string) (card : order_card)
  (file_name : string) : M ret :=
  lift (invoice_click card) ;;
  lift (popover_wait card) ;;
  href ← lift (summary_href card);
  let link := urljoin url href in
  summary_page ← new_page;
  lift (goto context link) ;;
  lift (wait_for_load_state context link) ;;
  let last_four := "all" in
  last_four ← (if negb (bool_decide (last_four ∈ cards))
                then get_last_four link else pure last_four);
  if bool_decide (last_four ∈ cards) then
    rendered ← lift (pdf context link);
    write_file (disk_write context file_name rendered) file_name rendered ;;
    close_page summary_page ;;
    pure SUCCESS
  else
    print ("Skipping download for card ending in " +:+ last_four) ;;
    close_page summary_page ;;
    pure SKIPPED.

Definition call (m : method) : string → order_card → string → M ret :=
  match m with
  | by_invoice => download_invoice
  | by_summary => download_summary
  end.

(** The list [download_method] (lines 236-242). *)
Definition download_method (invoice_type : string) : list method :=
  if String.eqb (Py.lower invoice_type) "invoice" then [by_invoice; by_summary]
  else if String.eqb (Py.lower invoice_type) "summary" then [by_summary; by_invoice]
  else [].

(** ** The order loop *)

(** The chain of methods for one order (lines 408-417).  The name [ret]
    is local to [run] there and holds the outcome; [ret.SUCCESS] read on
    that member is the member [SUCCESS] of its class, so the two tests
    compare the outcome with [SUCCESS] and with [SKIPPED]. *)
Fixpoint acquire (methods : list method) (url : string) (card : order_card)
  (file_name : string) : M unit :=
  match methods with
  | [] => pure tt
  | m :: rest =>
      r ← try (call m url card file_name);
      observe (EvCall m file_name r) ;;
      match r with
      | Ok SUCCESS => print ("✅ Successfully downloaded [" +:+ file_name +:+ "]")
      | Ok SKIPPED => pure tt
      | Ok FAILURE => acquire rest url card file_name
      | Raise e =>
          print ("Error downloading [" +:+ file_name +:+ "]: " +:+ str_of_exn e) ;;
          acquire rest url card file_name
      end
  end.

(** [l[i]] *)
Definition item (l : list string) (i : nat) : res string :=
  match l !! i with
  | Some x => Ok x
  | None => Raise index_out_of_range
  end.

(** The path of the artifact (line 396). *)
Definition artifact_path (target_dir : string) (d : date) (total orderid : string)
  : string :=
  target_dir +:+ "/" +:+ Datetime.strftime_iso d +:+ "_" +:+ total
    +:+ "_amazon_" +:+ orderid +:+ ".pdf".

(** How the body of the order loop ends: [continue] or the end of the
    body on one side, [done = True; break] on the other. *)
Inductive signal : Type := NextOrder | EndYear.

(** What is fixed during the traversal. *)
Record config : Type := Config {
  url : string;
  target_dir : string;
  start_date : date;
  end_date : date;
  methods : list method
}.

(** What the body of the order loop reads from the card (lines 388-394):
    [None] for a cancelled order, else the date, the total and the order
    identifier. *)
Definition extract (card : order_card) : res (option (date * string * string)) :=
  status ← item (spans card) 4;
  if String.eqb (Py.lower (Py.strip status)) "cancelled" then Ok None
  else
    date_text ← item (spans card) 1;
    date ← Datetime.strptime_long date_text;
    total_text ← item (spans card) 3;
    let total := Py.remove_char "," (Py.remove_char "$" total_text) in
    orderid ← get_order_id (spans card);
    Ok (Some (date, total, orderid)).

(** The body of the order loop (lines 383-417). *)
Definition process_order (c : config) (card : order_card) : M signal :=
  record ← lift (extract card);
  match record with
  | None => pure NextOrder
  | Some (date, total, orderid) =>
      let file_name := artifact_path (target_dir c) date total orderid in
      if Datetime.gtb date (end_date c) then pure NextOrder
      else if Datetime.ltb date (start_date c) then pure EndYear
      else
        present ← isfile file_name;
        if (present : bool) then
          print ("File [" +:+ file_name +:+ "] already exists") ;;
          pure NextOrder
        else
          acquire (methods c) (url c) card file_name ;;
          pure NextOrder
  end.

(** [for order_card in order_cards] *)
Fixpoint order_loop (c : config) (order_cards : list order_card) : M signal :=
  match order_cards with
  | [] => pure NextOrder
  | card :: rest =>
      s ← process_order c card;
      match s with
      | EndYear => pure EndYear
      | NextOrder => order_loop c rest
      end
  end.

(** ** The page loop and the year loop *)

(** [while not done], on the page shown and the pages that "Next" still
    leads to; the click on "Next" times out on the last page. *)
Fixpoint page_loop (c : config) (shown : list order_card)
  (later : list (list order_card)) : M unit :=
  s ← order_loop c shown;
  match s with
  | EndYear => pure tt
  | NextOrder =>
      print "Navigating to next page..." ;;
      match later with
      | [] => pure tt
      | p :: ps => page_loop c p ps
      end
  end.

(** The page loop over the pages of one year; the first page is shown
    once the year is selected, be it empty. *)
Definition traverse (c : config) (pages : list (list order_card)) : M unit :=
  match pages with
  | [] => page_loop c [] []
  | p :: ps => page_loop c p ps
  end.

Definition year_traversal (c : config) (year_label : string) : M unit :=
  traverse c (listing context year_label).

(** [for year in years] *)
Fixpoint year_loop (c : config) (years : list string) : M unit :=
  match years with
  | [] => pure tt
  | y :: rest => year_traversal c y ;; year_loop c rest
  end.

(** [run], from the arguments to the end of the year loop.  Signing in
    lies between the date window and the years and touches none of the
    data below. *)
Definition run (a : args) (now_year : Z) (base_url cwd : string) : M unit :=
  let download_method := download_method (arg_type a) in
  window ← lift (resolve_window a now_year);
  let target_dir := cwd +:+ "/" +:+ "downloads" in
  let years := Py.split "010" (time_filter_text context) in
  years ← lift (select_years years window.1 window.2);
  year_loop (Config base_url target_dir window.1 window.2 download_method) years.

End Core.

(** ** A concrete account, for the examples *)
Module Scenario.

Definition join (base ref : string) : string := base +:+ ref.

Definition pdf_response : response :=
  Response true 200 "OK" (Some "application/pdf") (Ok "%PDF-invoice").

Definition html_response : response :=
  Response true 200 "OK" (Some "text/html") (Ok "<html>").

(** A card with the usual spans: date at 1, total at 3, status at 4, the
    label of the order number followed by the number. *)
Definition card (date_text total status orderid : string) : order_card :=
  OrderCard
    ["Order placed"; date_text; "Total"; total; status; "Order #"; orderid]
    (Ok tt) (Ok tt) (Ok (Some ("/invoice/" +:+ orderid)))
    (Ok (Some ("/summary/" +:+ orderid))).

Definition card_A := card "June 1, 2022" "$10.00" "Delivered" "A".
Definition card_B := card "January 15, 2022" "$20.50" "Delivered" "B".
Definition card_C := card "December 20, 2021" "$5.00" "Delivered" "C".

Definition account : browser :=
  Browser
    ("last 30 days" +:+ String "010" ("2022" +:+ String "010" "2021"))
    (λ y, if String.eqb y "2022" then [[card_A; card_B]; [card_C]]
          else if String.eqb y "2021" then [[card_C]] else [])
    (λ _, Ok pdf_response) (λ _, Ok tt) (λ _, Ok tt) (λ _, "1234")
    (λ _, Ok "%PDF-summary") (λ _ _, Written).

Definition empty_world : world := World ∅ [] 0 [] [].

Definition year_2022 : args := Args None "2022" "invoice".

Definition reversed_range : args :=
  Args (Some "20221231-20220101") "<CUR_YEAR>" "invoice".

Definition base_url : string := "https://www.amazon.com".

Definition config_2022 : config :=
  Config base_url "/home/u/downloads" (Date 2022 1 1) (Date 2022 12 31)
    [by_invoice; by_summary].

Definition path_A : string := "/home/u/downloads/2022-06-01_10.00_amazon_A.pdf".

(** The download folder once the invoice of order A is there. *)
Definition world_with_A : world :=
  World {[ path_A := "%PDF-invoice" ]} [] 0 [] [].

Definition card_cancelled := card "June 1, 2022" "$7.00" "Cancelled" "Z".
Definition card_late := card "January 2, 2023" "$3.00" "Delivered" "L".
Definition card_undated := card "yesterday" "$1.00" "Delivered" "X".

Definition timed_out : exn := TimeoutError "Timeout 30000ms exceeded.".

(** The same account when the network is down: the fetch of the invoice
    and the navigation to the summary time out. *)
Definition offline : browser :=
  Browser (time_filter_text account) (listing account)
    (λ _, Raise timed_out) (λ _, Raise timed_out) (λ _, Ok tt) (λ _, "1234")
    (λ _, Ok "%PDF-summary") (λ _ _, Written).

(** An account whose first order of 2022 shows a date that is no date. *)
Definition account_undated : browser :=
  Browser (time_filter_text account)
    (λ y, if String.eqb y "2022" then [[card_undated; card_A]] else [])
    (λ _, Ok pdf_response) (λ _, Ok tt) (λ _, Ok tt) (λ _, "1234")
    (λ _, Ok "%PDF-summary") (λ _ _, Written).

End Scenario.


(** ** The last four digits of the payment card: [get_last_four] *)

(** [re.search(r"\d{4}", s)]: the leftmost four digits in a row. *)
Fixpoint search_four_digits (s : string) : option string :=
  match s with
  | EmptyString => None
  | String _ rest =>
      let head := String.substring 0 4 s in
      if (String.length head =? 4)%nat && Py.all_digits head then Some head
      else search_four_digits rest
  end.

(** What the page of the order summary answers to the four queries of
    [get_last_four]. *)
Record summary_view : Type := SummaryView {
  method_details_number : res string;   (* inner_text of the test id *)
  pmts_component : res (option string); (* text_content, which may be None *)
  ending_in_spans : res (list (res string)); (* count(), then each inner_text *)
  unable_to_display : res nat           (* count() of the notice *)
}.

(** The loop over the spans "ending in NNNN" (lines 142-145); an exception
    ends it. *)
Fixpoint scan_ending (texts : list (res string)) : res (option string) :=
  match texts with
  | [] => Ok None
  | Raise e :: _ => Raise e
  | Ok t :: rest =>
      match search_four_digits t with
      | Some found => Ok (Some found)
      | None => scan_ending rest
      end
  end.

Module Payment.

(** [get_last_four(page)] (lines 123-156): four attempts, each inside its
    own [try], an exception passing to the next. *)
Definition get_last_four (page : summary_view) : M string :=
  match method_details_number page with
  | Ok t => pure (Py.strip t)
  | Raise _ =>
      match
        (match pmts_component page with
         | Ok (Some t) => search_four_digits (Py.strip t)
         | _ => None
         end)
      with
      | Some found => pure found
      | None =>
          match
            (match ending_in_spans page with
             | Ok texts => match scan_ending texts with
                           | Ok o => o
                           | Raise _ => None
                           end
             | Raise _ => None
             end)
          with
          | Some found => pure found
          | None =>
              match unable_to_display page with
              | Ok (S _) => pure "unknown"
              | _ => print "No last four digits found." ;; pure "none"
              end
          end
      end
  end.

End Payment.

(** ** The environment file: [load_env_if_needed] *)

(** A path as its components below the root; the parent of the root is the
    root. *)
Definition parent (p : list string) : list string := removelast p.

Definition path_str (p : list string) : string :=
  "/" +:+ String.concat "/" p.

(** [for i in range(4)]: the directory and its parents, nearest first. *)
Fixpoint find_env (exists_ : list string → bool) (n : nat)
  (current_dir : list string) : option (list string) :=
  match n with
  | O => None
  | S k =>
      let check_path := current_dir ++ [".env"] in
      if exists_ check_path then Some check_path
      else find_env exists_ k (parent current_dir)
  end.

(** [load_dotenv(env_file)]: the variables of the file are set unless the
    environment has them already. *)
Definition load_dotenv (file_vars environ : gmap string string)
  : gmap string string :=
  environ ∪ file_vars.

(** [load_env_if_needed()], on the environment, the working directory,
    which paths exist and what each file defines; returns the environment
    and the lines printed. *)
Definition load_env_if_needed (environ : gmap string string)
  (cwd : list string) (exists_ : list string → bool)
  (dotenv_values : list string → gmap string string)
  : gmap string string * list string :=
  let amazon_email := environ !! "AMAZON_EMAIL" in
  let amazon_password := environ !! "AMAZON_PASSWORD" in
  if truthy amazon_email && truthy amazon_password then (environ, [])
  else
    match find_env exists_ 4 cwd with
    | Some env_file =>
        (load_dotenv (dotenv_values env_file) environ,
         ["Loading environment variables from " +:+ path_str env_file])
    | None =>
        (environ,
         ["No .env file found in current directory or parent directories"])
    end.

(** The [n]-th parent of a directory. *)
Fixpoint ancestor (n : nat) (p : list string) : list string :=
  match n with
  | O => p
  | S k => ancestor k (parent p)
  end.

(** ** More vocabulary *)

(** A date written as [%Y%m%d]. *)
Definition compact_date (d : date) : string :=
  Py.pad4 (year d) +:+ Py.pad2 (month d) +:+ Py.pad2 (day d).

(** The month and the day read by [%m%d] at the head of a text. *)
Definition month_day (tail : string) : list ((Z * Z) * string) :=
  m ← Datetime.re_m tail; d ← Datetime.re_d m.2; [((Py.int m.1, Py.int d.1), d.2)].

(** One date strictly before another. *)
Definition date_lt (a b : date) : Prop :=
  year a < year b
  ∨ (year a = year b
     ∧ (month a < month b ∨ (month a = month b ∧ day a < day b))).

(** A computation that leaves every existing file as it is. *)
Definition keeps_files {A} (m : M A) : Prop :=
  ∀ w p content, files w !! p = Some content → files (m w).1 !! p = Some content.

(** A computation that tests no file and calls no method, and leaves the
    files and the pages alone. *)
Definition only_prints {A} (m : M A) : Prop :=
  ∀ w, journal (m w).1 = journal w ∧ files (m w).1 = files w
       ∧ open_pages (m w).1 = open_pages w.

(** The character [c] does not occur in [s]. *)
Fixpoint char_absent (c : ascii) (s : string) : bool :=
  match s with
  | EmptyString => true
  | String d s' => negb (Ascii.eqb c d) && char_absent c s'
  end.

(** How many times the character [c] occurs in [s]. *)
Fixpoint count_char (c : ascii) (s : string) : nat :=
  match s with
  | EmptyString => O
  | String d s' => (if Ascii.eqb c d then 1 else 0) + count_char c s'
  end.

(** [%m%d] reads the two-digit month [m] and day [d] back. *)
Definition reads_month_day (m d : Z) : bool :=
  match head (month_day (Py.pad2 m +:+ Py.pad2 d)) with
  | Some ((m', d'), EmptyString) => (m' =? m) && (d' =? d)
  | _ => false
  end.

(** ** More concrete cases, for the examples *)
Module Cases.

(** A card that shows two spans only. *)
Definition short_card : order_card :=
  OrderCard ["Order placed"; "June 1, 2022"] (Ok tt) (Ok tt) (Ok None) (Ok None).

(** The account when the invoice link answers with a page of HTML. *)
Definition html_site : browser :=
  Browser (time_filter_text Scenario.account) (listing Scenario.account)
    (λ _, Ok Scenario.html_response) (λ _, Ok tt) (λ _, Ok tt) (λ _, "1234")
    (λ _, Ok "%PDF-summary") (λ _ _, Written).

(** The configuration for [--type=pdf]. *)
Definition config_pdf : config :=
  Config Scenario.base_url "/home/u/downloads" (Date 2022 1 1) (Date 2022 12 31)
    (download_method "pdf").

(** An environment with the e-mail only, a project four levels below the
    home directory, and environment files in the home directory and two
    levels below it. *)
Definition environ_email : gmap string string :=
  {[ "AMAZON_EMAIL" := "me@example.com" ]}.

Definition project_dir : list string := ["home"; "u"; "work"; "proj"; "src"].

Definition env_in_work_and_home (p : list string) : bool :=
  bool_decide (p = ["home"; "u"; "work"; ".env"] ∨ p = ["home"; ".env"]).

Definition env_in_home (p : list string) : bool :=
  bool_decide (p = ["home"; ".env"]).

Definition env_file_vars (p : list string) : gmap string string :=
  {[ "AMAZON_EMAIL" := "other@example.com"; "AMAZON_PASSWORD" := "secret" ]}.

(** Methods of which the first skips the order and the second times
    out. *)
Definition skipping (m : method) (url : string) (card : order_card)
  (file_name : string) : M ret :=
  match m with
  | by_invoice => pure SKIPPED
  | by_summary => lift (Raise Scenario.timed_out)
  end.

(** A window from the year 900 to the year 1100. *)
Definition config_medieval : config :=
  Config Scenario.base_url "/home/u/downloads" (Date 900 1 1) (Date 1100 12 31)
    [by_invoice; by_summary].

(** An order of the year 999. *)
Definition card_999 : order_card :=
  Scenario.card "June 1, 0999" "$10.00" "Delivered" "A".


End Cases.

(** ** Vocabulary of the properties *)

(** A computation that adds no observation to the journal. *)
Definition keeps_journal {A} (m : M A) : Prop :=
  ∀ w, journal (m w).1 = journal w.

(** A computation that only adds lines to standard output. *)
Definition stdout_grows {A} (m : M A) : Prop :=
  ∀ w, stdout w `prefix_of` stdout (m w).1.

(** An outcome after which the chain goes on to the next method, and one
    at which it stops. *)
Definition failed (r : res ret) : Prop := r = Ok FAILURE ∨ ∃ e, r = Raise e.
Definition final (r : res ret) : Prop := r = Ok SUCCESS ∨ r = Ok SKIPPED.

(** The calls a chain over [methods] may make, with their outcomes: the
    methods in order, each once, up to the first that is [final]. *)
Inductive chain : list method → list (method * res ret) → Prop :=
| chain_exhausted : chain [] []
| chain_stop m rest r : final r → chain (m :: rest) [(m, r)]
| chain_next m rest r calls :
    failed r → chain rest calls → chain (m :: rest) ((m, r) :: calls).

Definition call_event (file_name : string) (mr : method * res ret) : event :=
  EvCall mr.1 file_name mr.2.

(** The ranges of the fields of a date that [datetime] accepts. *)
Definition valid_date (d : date) : Prop :=
  1 ≤ year d ≤ 9999 ∧ 1 ≤ month d ≤ 12
  ∧ 1 ≤ day d ≤ Datetime.days_in_month (year d) (month d).

(** Equality of two texts when case is ignored. *)
Definition eq_nocase (a b : string) : Prop := Py.lower a = Py.lower b.

(** The line printed when a method raises (line 417). *)
Definition error_line (file_name : string) (e : exn) : string :=
  "Error downloading [" +:+ file_name +:+ "]: " +:+ str_of_exn e.

(** The loop of lines 408-417 over any callables: [attempt m] is what the
    call of the method [m] does. *)
Fixpoint run_chain (attempt : method → string → order_card → string → M ret)
  (methods : list method) (url : string) (card : order_card)
  (file_name : string) : M unit :=
  match methods with
  | [] => pure tt
  | m :: rest =>
      r ← try (attempt m url card file_name);
      observe (EvCall m file_name r) ;;
      match r with
      | Ok SUCCESS => print ("✅ Successfully downloaded [" +:+ file_name +:+ "]")
      | Ok SKIPPED => pure tt
      | Ok FAILURE => run_chain attempt rest url card file_name
      | Raise e =>
          print ("Error downloading [" +:+ file_name +:+ "]: " +:+ str_of_exn e) ;;
          run_chain attempt rest url card file_name
      end
  end.

(** The world once the body of the loop has dealt with the outcome [r] of
    the method [m], which left the world [w1]: the call is in the journal
    and the line of the outcome, if it has one, is printed. *)
Definition recorded (m : method) (file_name : string) (r : res ret)
  (w1 : world) : world :=
  let w2 := World (files w1) (open_pages w1) (next_page w1) (stdout w1)
              (journal w1 ++ [EvCall m file_name r]) in
  match r with
  | Ok SUCCESS =>
      World (files w2) (open_pages w2) (next_page w2)
        (stdout w2 ++ ["✅ Successfully downloaded [" +:+ file_name +:+ "]"])
        (journal w2)
  | Ok _ => w2
  | Raise e =>
      World (files w2) (open_pages w2) (next_page w2)
        (stdout w2 ++ [error_line file_name e]) (journal w2)
  end.

(** [invoked attempt url card file methods w calls w'], in words: from the world [w] the
    methods of the list are called one after the other, each on the world
    the one before left; [calls] are the calls made with what each
    returned or raised, and [w'] is the world at the end.  A call that
    returns [SUCCESS] or [SKIPPED] is the last; after one that returns
    [FAILURE] or raises comes the call of the next method, if any. *)
Inductive invoked (attempt : method → string → order_card → string → M ret)
  (url : string) (card : order_card) (file_name : string)
  : list method → world → list (method * res ret) → world → Prop :=
| invoked_none w : invoked attempt url card file_name [] w [] w
| invoked_last m rest w w1 r :
    attempt m url card file_name w = (w1, r) →
    final r →
    invoked attempt url card file_name (m :: rest) w [(m, r)]
      (recorded m file_name r w1)
| invoked_next m rest w w1 r calls w' :
    attempt m url card file_name w = (w1, r) →
    failed r →
    invoked attempt url card file_name rest (recorded m file_name r w1) calls w' →
    invoked attempt url card file_name (m :: rest) w ((m, r) :: calls) w'.

(** The world after the existence test of a path. *)
Definition tested (path : string) (w : world) : world :=
  World (files w) (open_pages w) (next_page w) (stdout w)
    (journal w ++ [EvIsFile path]).

(** A date inside the window. *)
Definition in_window (c : config) (d : date) : Prop :=
  Datetime.gtb d (end_date c) = false ∧ Datetime.ltb d (start_date c) = false.

(** Page handles are handed out in increasing order. *)
Definition pages_fresh (w : world) : Prop :=
  Forall (λ p, (p < next_page w)%nat) (open_pages w).


(** * Properties *)

(** ** Strings *)

Lemma rstrip_no_space (s : string) : Py.no_space s = true → Py.rstrip s = s.
Proof.
  induction s as [|c s IH]; [reflexivity|]. simpl.
  intros [Hc Hs]%andb_true_iff. rewrite (IH Hs).
  destruct s; [|reflexivity].
  apply negb_true_iff in Hc. by rewrite Hc.
Qed.

Lemma strip_no_space (s : string) : Py.no_space s = true → Py.strip s = s.
Proof.
  intros H. unfold Py.strip.
  assert (Py.lstrip s = s) as ->; [|by apply rstrip_no_space].
  destruct s as [|c s]; [reflexivity|]. simpl in *.
  apply andb_true_iff in H as [Hc _]. apply negb_true_iff in Hc. by rewrite Hc.
Qed.

Lemma isdigit_not_space (c : ascii) : Py.isdigit c = true → Py.isspace c = false.
Proof.
  unfold Py.isdigit, Py.isspace. cbv zeta.
  intros [H1%N.leb_le H2%N.leb_le]%andb_true_iff.
  apply orb_false_iff; split; apply andb_false_iff; rewrite !N.leb_gt; lia.
Qed.

Lemma all_digits_no_space (s : string) :
  Py.all_digits s = true → Py.no_space s = true.
Proof.
  induction s as [|c s IH]; [reflexivity|]. simpl.
  intros [Hc Hs]%andb_true_iff.
  by rewrite (isdigit_not_space _ Hc), (IH Hs).
Qed.


Lemma int_digits (s : string) :
  Py.all_digits s = true → Py.int s = Py.int_acc 0 s.
Proof.
  intros H. unfold Py.int. by rewrite strip_no_space by by apply all_digits_no_space.
Qed.






(** ** The order identifier *)

Lemma get_order_id_loop_scan (rest pre : list string) :
  get_order_id_loop (pre ++ rest) (seq (length pre) (length rest))
  = scan_spans rest.
Proof.
  revert pre. induction rest as [|s rest IH]; intros pre; [reflexivity|].
  cbn [length seq get_order_id_loop scan_spans].
  rewrite list_lookup_middle by reflexivity.
  fold (is_order_label s). destruct (is_order_label s).
  - replace (length pre + 1)%nat with (length (pre ++ [s]) + 0)%nat
      by (rewrite length_app; simpl; lia).
    rewrite (cons_middle s pre rest), app_assoc, lookup_app_r by lia.
    replace (length (pre ++ [s]) + 0 - length (pre ++ [s]))%nat with 0%nat by lia.
    destruct rest; reflexivity.
  - specialize (IH (pre ++ [s])).
    rewrite <- app_assoc, length_app in IH. simpl in IH.
    replace (length pre + 1)%nat with (S (length pre)) in IH by lia.
    exact IH.
Qed.

Lemma get_order_id_scan (spans : list string) :
  get_order_id spans = scan_spans spans.
Proof. exact (get_order_id_loop_scan spans []). Qed.

Lemma scan_spans_no_label (spans : list string) :
  Forall (λ s, is_order_label s = false) spans →
  scan_spans spans = Ok unknown_order_id.
Proof.
  induction 1 as [|s rest Hs _ IH]; [reflexivity|].
  simpl. rewrite Hs. exact IH.
Qed.

Lemma scan_spans_label_last (pre : list string) (l : string) :
  Forall (λ s, is_order_label s = false) pre →
  is_order_label l = true →
  scan_spans (pre ++ [l]) = Raise index_out_of_range.
Proof.
  intros Hpre Hl. induction Hpre as [|s rest Hs _ IH]; simpl.
  - rewrite Hl. reflexivity.
  - rewrite Hs. exact IH.
Qed.

(** C10, as amended: on a sequence of fragments none of which (white space
    trimmed, case ignored) starts with "Order #", [get_order_id] returns
    the sentinel "unknown_order_id"; when the first fragment that starts
    with "Order #" is the last of the sequence, the access to the fragment
    that follows is out of bounds and [get_order_id] raises [IndexError]. *)
Theorem get_order_id_sentinel_or_raise (pre : list string) (l : string) :
  Forall (λ s, is_order_label s = false) pre →
  is_order_label l = true →
  get_order_id pre = Ok unknown_order_id
  ∧ get_order_id (pre ++ [l]) = Raise index_out_of_range.
Proof.
  intros Hpre Hl. rewrite !get_order_id_scan. split.
  - by apply scan_spans_no_label.
  - by apply scan_spans_label_last.
Qed.

Lemma get_order_id_sentinel_or_raise_witness :
  get_order_id ["Order placed"; "June 1, 2022"] = Ok unknown_order_id
  ∧ get_order_id (["Order placed"; "June 1, 2022"] ++ [" ORDER # "])
    = Raise index_out_of_range.
Proof.
  apply (get_order_id_sentinel_or_raise ["Order placed"; "June 1, 2022"] " ORDER # ").
  - repeat constructor.
  - reflexivity.
Defined.

(** C10 as stated fails: the last fragment starts with "Order #", yet an
    earlier label is found first and the fragment after it is returned. *)
Lemma get_order_id_label_last_returns :
  last ["Order #"; "123"; "Order #"] = Some "Order #"
  ∧ is_order_label "Order #" = true
  ∧ get_order_id ["Order #"; "123"; "Order #"] = Ok "123".
Proof. repeat split. Qed.

Lemma isspace_lower_char (c : ascii) :
  Py.isspace (Py.lower_char c) = Py.isspace c.
Proof. destruct c as [[] [] [] [] [] [] [] []]; reflexivity. Qed.

Lemma no_space_lower (s : string) : Py.no_space (Py.lower s) = Py.no_space s.
Proof.
  induction s as [|c s IH]; [reflexivity|].
  simpl. by rewrite isspace_lower_char, IH.
Qed.

(** ** The selected years *)

#[local] Instance str_ge_trans : Transitive str_ge.
Proof. intros a b c Hab Hbc. unfold str_ge in *. by etrans. Qed.

#[local] Instance str_ge_total : Total str_ge.
Proof. intros a b. unfold str_ge. destruct (total String.le a b); auto. Qed.


Lemma int_checked_long (y : string) :
  (Py.int_max_str_digits < String.length (Py.strip y))%nat →
  ∃ msg, Py.int_checked y = Raise (ValueError msg).
Proof.
  intros H. unfold Py.int_checked.
  destruct (Nat.ltb_spec Py.int_max_str_digits (String.length (Py.strip y)));
    [by eexists|lia].
Qed.










(** ** Dates *)

Lemma code_digit_char (k : Z) :
  0 ≤ k ≤ 9 → Py.code (Py.digit_char k) = (Z.to_N k + 48)%N.
Proof. intros H. unfold Py.code, Py.digit_char. apply N_ascii_embedding. lia. Qed.

Lemma isdigit_digit_char (k : Z) : 0 ≤ k ≤ 9 → Py.isdigit (Py.digit_char k) = true.
Proof.
  intros H. unfold Py.isdigit. rewrite code_digit_char by done. cbv zeta.
  apply andb_true_iff. rewrite !N.leb_le. lia.
Qed.

Lemma digit_val_digit_char (k : Z) : 0 ≤ k ≤ 9 → Py.digit_val (Py.digit_char k) = k.
Proof. intros H. unfold Py.digit_val. rewrite code_digit_char by done. lia. Qed.

Lemma pad2_digits (n : Z) :
  0 ≤ n < 100 →
  Py.all_digits (Py.pad2 n) = true
  ∧ ∀ acc, Py.int_acc acc (Py.pad2 n) = 100 * acc + n.
Proof.
  intros H.
  assert (0 ≤ n / 10 ≤ 9) as H1
    by (split; [apply Z.div_pos|apply Z.lt_succ_r, Z.div_lt_upper_bound]; lia).
  assert (0 ≤ n mod 10 ≤ 9) as H2 by (pose proof (Z.mod_pos_bound n 10); lia).
  split.
  - simpl. by rewrite !isdigit_digit_char.
  - intros acc. simpl. rewrite !digit_val_digit_char by done.
    pose proof (Z.div_mod n 10). lia.
Qed.

Lemma all_digits_app (a b : string) :
  Py.all_digits (a +:+ b) = Py.all_digits a && Py.all_digits b.
Proof.
  induction a as [|c a IH]; [reflexivity|].
  change (String c a +:+ b) with (String c (a +:+ b)).
  cbn [Py.all_digits]. by rewrite IH, andb_assoc.
Qed.

Lemma int_acc_app (a b : string) (acc : Z) :
  Py.int_acc acc (a +:+ b) = Py.int_acc (Py.int_acc acc a) b.
Proof.
  revert acc. induction a as [|c a IH]; intros acc; [reflexivity|].
  change (String c a +:+ b) with (String c (a +:+ b)).
  cbn [Py.int_acc]. apply IH.
Qed.

Lemma int_pad2 (n : Z) : 0 ≤ n < 100 → Py.int (Py.pad2 n) = n.
Proof.
  intros H. destruct (pad2_digits n H) as [Hd Hv].
  rewrite int_digits, Hv by done. lia.
Qed.

Lemma int_pad4 (y : Z) : 0 ≤ y < 10000 → Py.int (Py.pad4 y) = y.
Proof.
  intros H.
  assert (0 ≤ y / 100 < 100) as H1
    by (split; [apply Z.div_pos|apply Z.div_lt_upper_bound]; lia).
  assert (0 ≤ y mod 100 < 100) as H2 by (apply Z.mod_pos_bound; lia).
  destruct (pad2_digits _ H1) as [Hd1 Hv1], (pad2_digits _ H2) as [Hd2 Hv2].
  unfold Py.pad4. rewrite int_digits by (by rewrite all_digits_app, Hd1, Hd2).
  rewrite int_acc_app, Hv1, Hv2. pose proof (Z.div_mod y 100). lia.
Qed.

Lemma make_valid (y m d : Z) (x : date) :
  Datetime.make y m d = Ok x → valid_date x.
Proof.
  unfold Datetime.make, valid_date.
  repeat case_match; intros [= <-]; simpl.
  repeat match goal with
         | H : negb _ = false |- _ => apply negb_false_iff, andb_true_iff in H
         end.
  lia.
Qed.

Lemma finish_valid (s fmt : string) found (x : date) :
  Datetime.finish s fmt found = Ok x → valid_date x.
Proof.
  unfold Datetime.finish.
  destruct found as [|[[[y m] d] [|c rest]] ?]; try done.
  apply make_valid.
Qed.

Lemma extract_valid (card : order_card) (d : date) (total orderid : string) :
  extract card = Ok (Some (d, total, orderid)) → valid_date d.
Proof.
  unfold extract, mbind, res_mbind, res_bind.
  repeat case_match; intros [=]; subst.
  by eapply finish_valid.
Qed.

Lemma days_in_month_le (y m : Z) : Datetime.days_in_month y m ≤ 31.
Proof. unfold Datetime.days_in_month. repeat case_match; lia. Qed.

(** ** The date window *)

Lemma make_value_error (y m d : Z) (e : exn) :
  Datetime.make y m d = Raise e → ∃ msg, e = ValueError msg.
Proof.
  unfold Datetime.make. repeat case_match; intros [= <-]; eauto.
Qed.

Lemma finish_value_error (s fmt : string) found (e : exn) :
  Datetime.finish s fmt found = Raise e → ∃ msg, e = ValueError msg.
Proof.
  unfold Datetime.finish, Datetime.no_match, Datetime.unconverted.
  destruct found as [|[[[y m] d] [|c rest]] ?].
  - intros [= <-]; eauto.
  - apply make_value_error.
  - intros [= <-]; eauto.
Qed.

Lemma window_texts_value_error (a : args) (now_year : Z) (e : exn) :
  window_texts a now_year = Raise e → ∃ msg, e = ValueError msg.
Proof.
  unfold window_texts, unpack2. repeat case_match; intros [= <-]; eauto.
Qed.

Lemma resolve_window_value_error (a : args) (now_year : Z) (e : exn) :
  resolve_window a now_year = Raise e → ∃ msg, e = ValueError msg.
Proof.
  unfold resolve_window, mbind, res_mbind, res_bind.
  destruct (window_texts a now_year) as [[t1 t2]|e0] eqn:Ht.
  - simpl. destruct (Datetime.strptime_compact t1) as [d1|e1] eqn:H1.
    + destruct (Datetime.strptime_compact t2) as [d2|e2] eqn:H2; [done|].
      intros [= <-]. by eapply finish_value_error.
    + intros [= <-]. by eapply finish_value_error.
  - intros [= <-]. by eapply window_texts_value_error.
Qed.

Lemma resolve_window_ok (a : args) (now_year : Z) (d1 d2 : date) :
  resolve_window a now_year = Ok (d1, d2)
  ↔ ∃ t1 t2, window_texts a now_year = Ok (t1, t2)
             ∧ Datetime.strptime_compact t1 = Ok d1
             ∧ Datetime.strptime_compact t2 = Ok d2.
Proof.
  unfold resolve_window, mbind, res_mbind, res_bind. split.
  - destruct (window_texts a now_year) as [[t1 t2]|e0]; [simpl|done].
    destruct (Datetime.strptime_compact t1) as [x1|] eqn:H1; [|done].
    destruct (Datetime.strptime_compact t2) as [x2|] eqn:H2; [|done].
    intros [= <- <-]. by exists t1, t2.
  - intros (t1 & t2 & -> & H1 & H2). simpl. by rewrite H1, H2.
Qed.

(** ** Effects of the primitives *)

Lemma bind_eq {A B} (m : M A) (k : A → M B) (w : world) :
  (m ≫= k) w = match m w with
               | (w', Ok a) => k a w'
               | (w', Raise e) => (w', Raise e)
               end.
Proof. reflexivity. Qed.

Lemma keeps_journal_bind {A B} (m : M A) (k : A → M B) :
  keeps_journal m → (∀ a, keeps_journal (k a)) → keeps_journal (m ≫= k).
Proof.
  intros Hm Hk w. rewrite bind_eq. specialize (Hm w).
  destruct (m w) as [w' [a|e]]; simpl in *; [|done].
  by rewrite Hk.
Qed.

Lemma keeps_journal_lift {A} (r : res A) : keeps_journal (lift r).
Proof. by intros w. Qed.

Lemma keeps_journal_pure {A} (a : A) : keeps_journal (pure a).
Proof. by intros w. Qed.

Lemma keeps_journal_print (line : string) : keeps_journal (print line).
Proof. by intros w. Qed.

Lemma keeps_journal_new_page : keeps_journal new_page.
Proof. by intros w. Qed.

Lemma keeps_journal_close_page (p : nat) : keeps_journal (close_page p).
Proof. by intros w. Qed.

Lemma keeps_journal_write_file (o : write_outcome) (path content : string) :
  keeps_journal (write_file o path content).
Proof. intros w. by destruct o. Qed.

Lemma stdout_grows_bind {A B} (m : M A) (k : A → M B) :
  stdout_grows m → (∀ a, stdout_grows (k a)) → stdout_grows (m ≫= k).
Proof.
  intros Hm Hk w. rewrite bind_eq. specialize (Hm w).
  destruct (m w) as [w' [a|e]]; simpl in *; [|done].
  etrans; [exact Hm|apply Hk].
Qed.

Lemma stdout_grows_lift {A} (r : res A) : stdout_grows (lift r).
Proof. by intros w. Qed.

Lemma stdout_grows_pure {A} (a : A) : stdout_grows (pure a).
Proof. by intros w. Qed.

Lemma stdout_grows_print (line : string) : stdout_grows (print line).
Proof. intros w. simpl. by apply prefix_app_r. Qed.

Lemma stdout_grows_new_page : stdout_grows new_page.
Proof. by intros w. Qed.

Lemma stdout_grows_close_page (p : nat) : stdout_grows (close_page p).
Proof. by intros w. Qed.

Lemma stdout_grows_write_file (o : write_outcome) (path content : string) :
  stdout_grows (write_file o path content).
Proof. intros w. by destruct o. Qed.

Lemma stdout_grows_observe (e : event) : stdout_grows (observe e).
Proof. by intros w. Qed.

Lemma stdout_grows_isfile (path : string) : stdout_grows (isfile path).
Proof. by intros w. Qed.

Lemma stdout_grows_try {A} (m : M A) : stdout_grows m → stdout_grows (try m).
Proof. intros Hm w. specialize (Hm w). unfold try. by destruct (m w). Qed.

Create HintDb effects.
#[local] Hint Resolve keeps_journal_lift keeps_journal_pure keeps_journal_print
  keeps_journal_new_page keeps_journal_close_page keeps_journal_write_file
  stdout_grows_lift stdout_grows_pure stdout_grows_print stdout_grows_new_page
  stdout_grows_close_page stdout_grows_write_file stdout_grows_observe
  stdout_grows_isfile : effects.

Ltac effects :=
  repeat first
    [ apply keeps_journal_bind; [|intros ?]
    | apply stdout_grows_bind; [|intros ?]
    | progress auto with effects
    | case_match ].

Section CoreProperties.

Context (urljoin_ref : string → string → string) (context : browser).

Lemma keeps_journal_call (m : method) (url : string) (card : order_card)
  (file_name : string) :
  keeps_journal (call urljoin_ref context m url card file_name).
Proof.
  destruct m; unfold call, download_invoice, download_summary, get_last_four;
    effects.
Qed.

Lemma stdout_grows_call (m : method) (url : string) (card : order_card)
  (file_name : string) :
  stdout_grows (call urljoin_ref context m url card file_name).
Proof.
  destruct m; unfold call, download_invoice, download_summary, get_last_four;
    effects.
Qed.

(** ** The chain of methods *)

Lemma acquire_chain (ms : list method) (url : string) (card : order_card)
  (file_name : string) (w : world) :
  ∃ w' calls,
    acquire urljoin_ref context ms url card file_name w = (w', Ok tt)
    ∧ journal w' = journal w ++ map (call_event file_name) calls
    ∧ chain ms calls
    ∧ stdout w `prefix_of` stdout w'
    ∧ ∀ m e, (m, Raise e) ∈ calls → error_line file_name e ∈ stdout w'.
Proof.
  revert w. induction ms as [|m rest IH]; intros w.
  { exists w, []. rewrite app_nil_r.
    repeat split; [constructor|done|]. intros m e H. by apply elem_of_nil in H. }
  cbn [acquire]. rewrite bind_eq. unfold try.
  pose proof (keeps_journal_call m url card file_name w) as Hj.
  pose proof (stdout_grows_call m url card file_name w) as Hs.
  destruct (call urljoin_ref context m url card file_name w) as [w1 r].
  simpl in Hj, Hs. rewrite bind_eq. cbn [observe].
  set (w2 := World (files w1) (open_pages w1) (next_page w1) (stdout w1)
               (journal w1 ++ [EvCall m file_name r])).
  destruct r as [[| |]|e].
  - eexists _, [(m, Ok SUCCESS)]. split; [reflexivity|]. simpl.
    rewrite Hj. repeat split.
    + apply chain_stop. by left.
    + etrans; [exact Hs|]. by apply prefix_app_r.
    + intros m' e' [=]%list_elem_of_singleton.
  - destruct (IH w2) as (w' & calls & Hrun & Hjw & Hch & Hsw & Hlog).
    exists w', ((m, Ok FAILURE) :: calls). split; [exact Hrun|].
    rewrite Hjw. subst w2. simpl. rewrite Hj, <- app_assoc. repeat split.
    + apply chain_next; [by left|done].
    + etrans; [exact Hs|exact Hsw].
    + intros m' e' [[=]|H]%elem_of_cons. by eapply Hlog.
  - exists w2, [(m, Ok SKIPPED)]. split; [reflexivity|]. subst w2. simpl.
    rewrite Hj. repeat split.
    + apply (chain_stop m rest). by right.
    + done.
    + intros m' e' [=]%list_elem_of_singleton.
  - rewrite bind_eq. cbn [print]. fold (error_line file_name e).
    match goal with
    | |- context [acquire _ _ rest url card file_name ?w3] =>
        destruct (IH w3) as (w' & calls & Hrun & Hjw & Hch & Hsw & Hlog)
    end.
    exists w', ((m, Raise e) :: calls). split; [exact Hrun|].
    rewrite Hjw. subst w2. simpl in *. rewrite Hj, <- app_assoc. repeat split.
    + apply chain_next; [right; by eexists|done].
    + etrans; [exact Hs|]. etrans; [|exact Hsw]. by apply prefix_app_r.
    + intros m' e' [[= _ <-]|H]%elem_of_cons; [|by eapply Hlog].
      eapply elem_of_prefix; [|exact Hsw].
      apply elem_of_app. right. by left.
Qed.

Lemma chain_prefix (ms : list method) (calls : list (method * res ret)) :
  chain ms calls → calls.*1 `prefix_of` ms.
Proof.
  induction 1 as [|m rest r _|m rest r calls _ _ IH]; simpl.
  - done.
  - apply prefix_cons, prefix_nil.
  - by apply prefix_cons.
Qed.

(** ** Unfolding the loops *)

Lemma process_order_extracted (c : config) (card : order_card) (d : date)
  (total orderid : string) (w : world) :
  extract card = Ok (Some (d, total, orderid)) →
  process_order urljoin_ref context c card w
  = let file_name := artifact_path (target_dir c) d total orderid in
    if Datetime.gtb d (end_date c) then (w, Ok NextOrder)
    else if Datetime.ltb d (start_date c) then (w, Ok EndYear)
    else
      match isfile file_name w with
      | (w1, Ok true) =>
          (print ("File [" +:+ file_name +:+ "] already exists") ;;
           pure NextOrder) w1
      | (w1, Ok false) =>
          (acquire urljoin_ref context (methods c) (url c) card file_name ;;
           pure NextOrder) w1
      | (w1, Raise e) => (w1, Raise e)
      end.
Proof.
  intros He. unfold process_order. rewrite bind_eq. unfold lift. rewrite He.
  cbv zeta. destruct (Datetime.gtb d (end_date c)); [reflexivity|].
  destruct (Datetime.ltb d (start_date c)); [reflexivity|].
  rewrite bind_eq. cbn [isfile]. by case_bool_decide.
Qed.

Lemma order_loop_cons (c : config) (card : order_card)
  (rest : list order_card) (w : world) :
  order_loop urljoin_ref context c (card :: rest) w
  = match process_order urljoin_ref context c card w with
    | (w', Ok NextOrder) => order_loop urljoin_ref context c rest w'
    | (w', Ok EndYear) => (w', Ok EndYear)
    | (w', Raise e) => (w', Raise e)
    end.
Proof.
  cbn [order_loop]. rewrite bind_eq.
  by destruct (process_order urljoin_ref context c card w) as [w' [[|]|e]].
Qed.


Lemma page_loop_eq (c : config) (shown : list order_card)
  (later : list (list order_card)) (w : world) :
  page_loop urljoin_ref context c shown later w
  = match order_loop urljoin_ref context c shown w with
    | (w1, Ok EndYear) => (w1, Ok tt)
    | (w1, Ok NextOrder) =>
        match later with
        | [] => print "Navigating to next page..." w1
        | p :: ps =>
            page_loop urljoin_ref context c p ps
              (print "Navigating to next page..." w1).1
        end
    | (w1, Raise e) => (w1, Raise e)
    end.
Proof.
  destruct later; cbn [page_loop]; rewrite bind_eq;
    by destruct (order_loop urljoin_ref context c shown w) as [w1 [[|]|e]].
Qed.

Lemma year_loop_cons (c : config) (y : string) (years : list string) (w : world) :
  year_loop urljoin_ref context c (y :: years) w
  = match traverse urljoin_ref context c (listing context y) w with
    | (w1, Ok _) => year_loop urljoin_ref context c years w1
    | (w1, Raise e) => (w1, Raise e)
    end.
Proof. reflexivity. Qed.

(** ** Cancelled orders *)

Lemma extract_cancelled (card : order_card) (status : string) :
  spans card !! 4%nat = Some status → eq_nocase status "cancelled" →
  extract card = Ok None.
Proof.
  intros Hs Hc. unfold extract, item. rewrite Hs. simpl.
  assert (Py.no_space status = true) as Hns.
  { rewrite <- no_space_lower, Hc. reflexivity. }
  by rewrite (strip_no_space _ Hns), Hc.
Qed.

(** C6: an order entry whose status text equals "cancelled", case
    ignored, is skipped before anything else is read from it: no date,
    total or identifier is extracted, so no path is computed; the world
    is left as it was, so its journal holds no existence check and no
    call of a method; and the loop goes on with the next entry. *)
Theorem cancelled_order_skipped (c : config) (card : order_card)
  (status : string) (w : world) :
  spans card !! 4%nat = Some status →
  eq_nocase status "cancelled" →
  extract card = Ok None
  ∧ process_order urljoin_ref context c card w = (w, Ok NextOrder)
  ∧ ∀ rest, order_loop urljoin_ref context c (card :: rest) w
            = order_loop urljoin_ref context c rest w.
Proof.
  intros Hs Hc. pose proof (extract_cancelled card status Hs Hc) as He.
  assert (process_order urljoin_ref context c card w = (w, Ok NextOrder)) as Hp.
  { unfold process_order. rewrite bind_eq. unfold lift. by rewrite He. }
  repeat split; [done..|].
  intros rest. by rewrite order_loop_cons, Hp.
Qed.

(** ** Orders whose artifact exists *)

Lemma process_order_existing (c : config) (card : order_card)
  (d : date) (total orderid : string) (w : world) :
  extract card = Ok (Some (d, total, orderid)) →
  in_window c d →
  is_Some (files w !! artifact_path (target_dir c) d total orderid) →
  process_order urljoin_ref context c card w
  = (World (files w) (open_pages w) (next_page w)
       (stdout w ++ ["File [" +:+ artifact_path (target_dir c) d total orderid
                     +:+ "] already exists"])
       (journal w ++ [EvIsFile (artifact_path (target_dir c) d total orderid)]),
     Ok NextOrder).
Proof.
  intros He [Hgt Hlt] Hf.
  rewrite (process_order_extracted c card d total orderid w He).
  cbv zeta. rewrite Hgt, Hlt. cbn [isfile].
  by rewrite bool_decide_eq_true_2 by done.
Qed.

(** C4: when the path resolved for an order names an existing file, no
    acquisition method is called for that order (the journal gains no
    call), the files are left as they are, no page is opened, and, the
    order being inside the window, the only things done are the existence
    test and a line of log, after which the loop takes the next order. *)
Theorem existing_artifact_not_acquired (c : config) (card : order_card)
  (d : date) (total orderid : string) (w : world) :
  extract card = Ok (Some (d, total, orderid)) →
  is_Some (files w !! artifact_path (target_dir c) d total orderid) →
  ∃ w' s,
    process_order urljoin_ref context c card w = (w', Ok s)
    ∧ files w' = files w
    ∧ open_pages w' = open_pages w
    ∧ (∀ m f r, EvCall m f r ∈ journal w' → EvCall m f r ∈ journal w)
    ∧ (in_window c d →
       s = NextOrder
       ∧ journal w'
         = journal w ++ [EvIsFile (artifact_path (target_dir c) d total orderid)]
       ∧ ∀ rest, order_loop urljoin_ref context c (card :: rest) w
                 = order_loop urljoin_ref context c rest w').
Proof.
  intros He Hf.
  destruct (Datetime.gtb d (end_date c)) eqn:Hgt.
  { pose proof (process_order_extracted c card d total orderid w He) as Hp.
    cbv zeta in Hp. rewrite Hgt in Hp.
    exists w, NextOrder. do 4 (split; [done|]). intros [? ?]. congruence. }
  destruct (Datetime.ltb d (start_date c)) eqn:Hlt.
  { pose proof (process_order_extracted c card d total orderid w He) as Hp.
    cbv zeta in Hp. rewrite Hgt, Hlt in Hp.
    exists w, EndYear. do 4 (split; [done|]). intros [? ?]. congruence. }
  pose proof (process_order_existing c card d total orderid w He (conj Hgt Hlt) Hf)
    as Hp.
  eexists _, NextOrder. split; [exact Hp|]. do 2 (split; [done|]). split.
  - cbn [journal]. intros m f r [H|[=]%list_elem_of_singleton]%elem_of_app. exact H.
  - intros _. do 2 (split; [done|]).
    intros rest. by rewrite order_loop_cons, Hp.
Qed.

(** ** The bounds of the window *)





(** ** Orders whose artifact is missing *)

Lemma process_order_acquires (c : config) (card : order_card) (d : date)
  (total orderid : string) (w : world) :
  extract card = Ok (Some (d, total, orderid)) →
  in_window c d →
  files w !! artifact_path (target_dir c) d total orderid = None →
  ∃ w' calls,
    process_order urljoin_ref context c card w = (w', Ok NextOrder)
    ∧ journal w'
      = journal w
        ++ EvIsFile (artifact_path (target_dir c) d total orderid)
        :: map (call_event (artifact_path (target_dir c) d total orderid)) calls
    ∧ chain (methods c) calls
    ∧ stdout w `prefix_of` stdout w'
    ∧ ∀ m e, (m, Raise e) ∈ calls →
             error_line (artifact_path (target_dir c) d total orderid) e
             ∈ stdout w'.
Proof.
  intros He [Hgt Hlt] Hf.
  rewrite (process_order_extracted c card d total orderid w He).
  cbv zeta. rewrite Hgt, Hlt. cbn [isfile].
  rewrite bool_decide_eq_false_2 by (rewrite Hf; by intros [? [=]]).
  rewrite bind_eq.
  match goal with
  | |- context [acquire _ _ ?ms ?u card ?f ?w1] =>
      destruct (acquire_chain ms u card f w1) as (w' & calls & Hrun & Hj & Hch & Hs & Hlog)
  end.
  exists w', calls. rewrite Hrun. split; [reflexivity|].
  rewrite Hj. cbn [journal stdout] in *. rewrite <- app_assoc. by repeat split.
Qed.

Lemma run_chain_invoked
  (attempt : method → string → order_card → string → M ret)
  (ms : list method) (url : string) (card : order_card) (file_name : string)
  (w : world) :
  ∃ w' calls,
    run_chain attempt ms url card file_name w = (w', Ok tt)
    ∧ invoked attempt url card file_name ms w calls w'
    ∧ chain ms calls.
Proof.
  revert w. induction ms as [|m rest IH]; intros w.
  { exists w, []. repeat split; constructor. }
  cbn [run_chain]. rewrite bind_eq. unfold try.
  destruct (attempt m url card file_name w) as [w1 r] eqn:Ha.
  rewrite bind_eq. cbn [observe].
  destruct r as [[| |]|e].
  - exists (recorded m file_name (Ok SUCCESS) w1), [(m, Ok SUCCESS)].
    split; [reflexivity|].
    split; [apply (invoked_last _ _ _ _ m rest w w1); [done|by left]|].
    apply (chain_stop m rest). by left.
  - destruct (IH (recorded m file_name (Ok FAILURE) w1))
      as (w' & calls & Hrun & Hinv & Hch).
    exists w', ((m, Ok FAILURE) :: calls). split; [exact Hrun|].
    split; [by apply (invoked_next _ _ _ _ m rest w w1); [|left|]|].
    apply chain_next; [by left|done].
  - exists (recorded m file_name (Ok SKIPPED) w1), [(m, Ok SKIPPED)].
    split; [reflexivity|].
    split; [apply (invoked_last _ _ _ _ m rest w w1); [done|by right]|].
    apply (chain_stop m rest). by right.
  - rewrite bind_eq. cbn [print].
    destruct (IH (recorded m file_name (Raise e) w1))
      as (w' & calls & Hrun & Hinv & Hch).
    exists w', ((m, Raise e) :: calls). split; [exact Hrun|].
    split; [by apply (invoked_next _ _ _ _ m rest w w1); [|right; eexists|]|].
    apply chain_next; [right; by eexists|done].
Qed.

Lemma acquire_run_chain (ms : list method) (url : string) (card : order_card)
  (file_name : string) (w : world) :
  acquire urljoin_ref context ms url card file_name w
  = run_chain (call urljoin_ref context) ms url card file_name w.
Proof.
  revert w. induction ms as [|m rest IH]; intros w; [reflexivity|].
  cbn [acquire run_chain]. rewrite !bind_eq. unfold try.
  destruct (call urljoin_ref context m url card file_name w) as [w1 r].
  rewrite !bind_eq. cbn [observe].
  destruct r as [[| |]|e]; try reflexivity; [apply IH|].
  rewrite !bind_eq. cbn [print]. apply IH.
Qed.

Lemma process_order_missing (c : config) (card : order_card) (d : date)
  (total orderid : string) (w : world) :
  extract card = Ok (Some (d, total, orderid)) →
  in_window c d →
  files w !! artifact_path (target_dir c) d total orderid = None →
  process_order urljoin_ref context c card w
  = ((run_chain (call urljoin_ref context) (methods c) (url c) card
        (artifact_path (target_dir c) d total orderid)
        (tested (artifact_path (target_dir c) d total orderid) w)).1,
     Ok NextOrder).
Proof.
  intros He [Hgt Hlt] Hf.
  rewrite (process_order_extracted c card d total orderid w He).
  cbv zeta. rewrite Hgt, Hlt. cbn [isfile].
  rewrite bool_decide_eq_false_2 by (rewrite Hf; by intros [? [=]]).
  rewrite bind_eq, acquire_run_chain. fold (tested (artifact_path (target_dir c) d total orderid) w).
  destruct (run_chain_invoked (call urljoin_ref context) (methods c) (url c) card
              (artifact_path (target_dir c) d total orderid)
              (tested (artifact_path (target_dir c) d total orderid) w))
    as (w' & calls & -> & _).
  reflexivity.
Qed.

(** C2: for an order inside the window whose artifact file does not yet
    exist, the body of the order loop is the existence test followed by
    the chain over the configured methods, and ends normally.  In the
    chain, whatever the methods are and do, each call is made on the world
    the call before left; the calls follow the configured order, each
    method at most once; a call that returns [FAILURE] or raises is
    followed by the call of the next method; the chain stops at the first
    call that returns [SUCCESS] or [SKIPPED], or when the list is
    exhausted; and no exception leaves it. *)
Theorem acquisition_chain_in_order (c : config) (card : order_card) (d : date)
  (total orderid : string) (w : world) :
  extract card = Ok (Some (d, total, orderid)) →
  in_window c d →
  files w !! artifact_path (target_dir c) d total orderid = None →
  process_order urljoin_ref context c card w
  = ((run_chain (call urljoin_ref context) (methods c) (url c) card
        (artifact_path (target_dir c) d total orderid)
        (tested (artifact_path (target_dir c) d total orderid) w)).1,
     Ok NextOrder)
  ∧ ∀ attempt, ∃ w' calls,
      run_chain attempt (methods c) (url c) card
        (artifact_path (target_dir c) d total orderid)
        (tested (artifact_path (target_dir c) d total orderid) w)
      = (w', Ok tt)
      ∧ invoked attempt (url c) card
          (artifact_path (target_dir c) d total orderid) (methods c)
          (tested (artifact_path (target_dir c) d total orderid) w) calls w'
      ∧ chain (methods c) calls
      ∧ calls.*1 `prefix_of` methods c.
Proof.
  intros He Hw Hf. split; [by apply process_order_missing|].
  intros attempt.
  destruct (run_chain_invoked attempt (methods c) (url c) card
              (artifact_path (target_dir c) d total orderid)
              (tested (artifact_path (target_dir c) d total orderid) w))
    as (w' & calls & Hrun & Hinv & Hch).
  exists w', calls. repeat split; [done..|]. by apply chain_prefix.
Qed.

(** ** Errors *)

Lemma extraction_error_aborts (c : config) (card : order_card) (e : exn)
  (w : world) :
  extract card = Raise e →
  process_order urljoin_ref context c card w = (w, Raise e)
  ∧ ∀ y years rest later,
      listing context y = (card :: rest) :: later →
      year_loop urljoin_ref context c (y :: years) w = (w, Raise e).
Proof.
  intros He.
  assert (process_order urljoin_ref context c card w = (w, Raise e)) as Hp.
  { unfold process_order. rewrite bind_eq. unfold lift. by rewrite He. }
  split; [done|]. intros y years rest later Hl.
  rewrite year_loop_cons, Hl. cbn [traverse].
  by rewrite page_loop_eq, order_loop_cons, Hp.
Qed.

(** C1, as amended: an error raised by an acquisition method is caught
    in the body of the order loop and logged, the run goes on, and the
    loop takes the next order, or the next page after the last order of
    a page; an error raised while the entry is read (no status span, a
    date that does not parse, a label of the order number with nothing
    after it) is not caught: it leaves the loops and ends the run. *)
Theorem order_errors (c : config) (card : order_card) (w : world) :
  (∀ d total orderid,
     extract card = Ok (Some (d, total, orderid)) →
     in_window c d →
     files w !! artifact_path (target_dir c) d total orderid = None →
     ∃ w' calls,
       process_order urljoin_ref context c card w = (w', Ok NextOrder)
       ∧ journal w'
         = journal w
           ++ EvIsFile (artifact_path (target_dir c) d total orderid)
           :: map (call_event (artifact_path (target_dir c) d total orderid)) calls
       ∧ (∀ m e, (m, Raise e) ∈ calls →
                 error_line (artifact_path (target_dir c) d total orderid) e
                 ∈ stdout w')
       ∧ (∀ rest, order_loop urljoin_ref context c (card :: rest) w
                  = order_loop urljoin_ref context c rest w')
       ∧ (∀ p ps, page_loop urljoin_ref context c [card] (p :: ps) w
                  = page_loop urljoin_ref context c p ps
                      (print "Navigating to next page..." w').1))
  ∧ (∀ e, extract card = Raise e →
          process_order urljoin_ref context c card w = (w, Raise e)
          ∧ ∀ y years rest later,
              listing context y = (card :: rest) :: later →
              year_loop urljoin_ref context c (y :: years) w = (w, Raise e)).
Proof.
  split.
  - intros d total orderid He Hw Hf.
    destruct (process_order_acquires c card d total orderid w He Hw Hf)
      as (w' & calls & Hp & Hj & _ & _ & Hlog).
    exists w', calls. do 3 (split; [done|]). split.
    + intros rest. by rewrite order_loop_cons, Hp.
    + intros p ps. by rewrite page_loop_eq, order_loop_cons, Hp.
  - intros e He. by apply extraction_error_aborts.
Qed.


(** ** The date window and the run *)

(** C3, as amended: the resolution of the date window succeeds exactly
    when the input splits into two texts that both parse as dates, with
    the two dates as they come, whether or not the first is after the
    second; it fails, with a [ValueError], when the input cannot be
    parsed so, and [run] then ends with that error before anything is
    done on the browser or the files. *)
Theorem date_window_resolution (a : args) (now_year : Z) :
  (∀ d1 d2,
     resolve_window a now_year = Ok (d1, d2)
     ↔ ∃ t1 t2, window_texts a now_year = Ok (t1, t2)
                ∧ Datetime.strptime_compact t1 = Ok d1
                ∧ Datetime.strptime_compact t2 = Ok d2)
  ∧ (∀ e, resolve_window a now_year = Raise e →
          (∃ msg, e = ValueError msg)
          ∧ ∀ url cwd w,
              run urljoin_ref context a now_year url cwd w = (w, Raise e)).
Proof.
  split; [apply resolve_window_ok|].
  intros e He. split; [by eapply resolve_window_value_error|].
  intros url cwd w. unfold run. rewrite bind_eq. unfold lift. by rewrite He.
Qed.

(** ** The pages opened by the methods *)

Lemma filter_fresh (pages : list nat) (n : nat) :
  Forall (λ p, (p < n)%nat) pages →
  List.filter (λ q, negb (q =? n)%nat) (pages ++ [n]) = pages.
Proof.
  induction 1 as [|p pages Hp _ IH]; simpl.
  - by rewrite Nat.eqb_refl.
  - rewrite IH. destruct (Nat.eqb_spec p n); [lia|done].
Qed.

(** A method that returns, whatever it returns, has closed the page it
    opened. *)
Lemma pages_closed_on_return (m : method) (url : string) (card : order_card)
  (file_name : string) (w w' : world) (o : ret) :
  pages_fresh w →
  call urljoin_ref context m url card file_name w = (w', Ok o) →
  open_pages w' = open_pages w.
Proof.
  intros Hfresh.
  destruct m;
    unfold call, download_invoice, download_summary, get_last_four, mbind,
      M_bind, bind, lift, new_page, close_page, write_file, print, pure;
    intros H; repeat case_match; simplify_eq; simpl;
    solve [done | by apply filter_fresh].
Qed.

End CoreProperties.

(** ** The properties on the concrete account *)

Lemma cancelled_order_skipped_witness :
  extract Scenario.card_cancelled = Ok None
  ∧ process_order Scenario.join Scenario.account Scenario.config_2022
      Scenario.card_cancelled Scenario.empty_world
    = (Scenario.empty_world, Ok NextOrder).
Proof.
  destruct (cancelled_order_skipped Scenario.join Scenario.account
              Scenario.config_2022 Scenario.card_cancelled "Cancelled"
              Scenario.empty_world) as (He & Hp & _).
  - reflexivity.
  - reflexivity.
  - by split.
Defined.

Lemma existing_artifact_not_acquired_witness :
  ∃ w' s,
    process_order Scenario.join Scenario.account Scenario.config_2022
      Scenario.card_A Scenario.world_with_A = (w', Ok s)
    ∧ files w' = files Scenario.world_with_A.
Proof.
  destruct (existing_artifact_not_acquired Scenario.join Scenario.account
              Scenario.config_2022 Scenario.card_A (Date 2022 6 1) "10.00" "A"
              Scenario.world_with_A)
    as (w' & s & Hp & Hf & _).
  - reflexivity.
  - exists "%PDF-invoice". vm_compute. reflexivity.
  - by exists w', s.
Defined.


Lemma acquisition_chain_in_order_witness :
  process_order Scenario.join Scenario.offline Scenario.config_2022
    Scenario.card_A Scenario.empty_world
  = ((run_chain (call Scenario.join Scenario.offline) [by_invoice; by_summary]
        Scenario.base_url Scenario.card_A Scenario.path_A
        (tested Scenario.path_A Scenario.empty_world)).1,
     Ok NextOrder)
  ∧ ∃ w1,
      invoked Cases.skipping Scenario.base_url Scenario.card_A Scenario.path_A
        [by_invoice; by_summary] (tested Scenario.path_A Scenario.empty_world)
        [(by_invoice, Ok SKIPPED)] w1.
Proof.
  destruct (acquisition_chain_in_order Scenario.join Scenario.offline
              Scenario.config_2022 Scenario.card_A (Date 2022 6 1) "10.00" "A"
              Scenario.empty_world) as [Hp Hany].
  - reflexivity.
  - split; reflexivity.
  - reflexivity.
  - split; [exact Hp|].
    destruct (Hany Cases.skipping) as (w1 & calls & _ & Hinv & _).
    exists w1.
    inversion Hinv as [|m rest w0 w2 r Ha Hfin|m rest w0 w2 r calls' w3 Ha Hfail Hrest];
      subst; injection Ha as <- <-.
    + exact Hinv.
    + destruct Hfail as [[=]|[e [=]]].
Defined.

Lemma order_errors_witness :
  ∃ w' (calls : list (method * res ret)),
    process_order Scenario.join Scenario.offline Scenario.config_2022
      Scenario.card_A Scenario.empty_world = (w', Ok NextOrder)
    ∧ ∀ m e, (m, Raise e) ∈ calls → error_line Scenario.path_A e ∈ stdout w'.
Proof.
  destruct (order_errors Scenario.join Scenario.offline Scenario.config_2022
              Scenario.card_A Scenario.empty_world) as [Hcaught _].
  destruct (Hcaught (Date 2022 6 1) "10.00" "A")
    as (w' & calls & Hp & _ & Hlog & _).
  - reflexivity.
  - split; reflexivity.
  - reflexivity.
  - by exists w', calls.
Defined.

(** C1 as stated fails: the date of the first order of 2022 does not
    parse, the [ValueError] leaves [run], and the order that follows is
    never looked at: nothing is tested, fetched or printed. *)
Lemma run_aborted_by_unparseable_date :
  run Scenario.join Scenario.account_undated Scenario.year_2022 2026
    Scenario.base_url "/home/u" Scenario.empty_world
  = (Scenario.empty_world,
     Raise (ValueError "time data 'yesterday' does not match format '%B %d, %Y'")).
Proof. vm_compute. reflexivity. Qed.


Lemma date_window_resolution_witness :
  resolve_window Scenario.year_2022 2026 = Ok (Date 2022 1 1, Date 2022 12 31).
Proof.
  apply (date_window_resolution Scenario.join Scenario.account Scenario.year_2022 2026).
  exists "20220101", "20221231". repeat split.
Defined.

(** C3 as stated fails: a range whose start is after its end resolves,
    without error, to the two dates as given. *)
Lemma reversed_range_resolves :
  resolve_window Scenario.reversed_range 2026
  = Ok (Date 2022 12 31, Date 2022 1 1)
  ∧ Datetime.gtb (Date 2022 12 31) (Date 2022 1 1) = true.
Proof. split; reflexivity. Qed.

(** C9 fails on the code when an error is raised between the opening and
    the closing of the page: the fetch of the invoice, or the navigation
    to the summary, times out, the method raises, and the page it opened
    (handle 0) is still open. *)
Theorem page_left_open_on_error :
  download_invoice Scenario.join Scenario.offline Scenario.base_url
    Scenario.card_A Scenario.path_A Scenario.empty_world
  = (World ∅ [0%nat] 1 [] [], Raise Scenario.timed_out)
  ∧ download_summary Scenario.join Scenario.offline Scenario.base_url
      Scenario.card_A Scenario.path_A Scenario.empty_world
    = (World ∅ [0%nat] 1 [] [], Raise Scenario.timed_out).
Proof. split; reflexivity. Qed.

(** * Further properties of the code *)

(** ** The order identifier and the extraction *)

(** The identifier is the trimmed text of the fragment that follows the
    first label "Order #", whatever comes after. *)
Theorem get_order_id_after_first_label (pre rest : list string) (l t : string) :
  Forall (λ s, is_order_label s = false) pre →
  is_order_label l = true →
  get_order_id (pre ++ l :: t :: rest) = Ok (Py.strip t).
Proof.
  intros Hpre Hl. rewrite get_order_id_scan.
  induction Hpre as [|s pre' Hs _ IH]; simpl.
  - by rewrite Hl.
  - by rewrite Hs.
Qed.

Lemma get_order_id_after_first_label_witness :
  get_order_id (["Order placed"; "June 1, 2022"]
                ++ "ORDER # " :: " 112-7 " :: ["Order #"; "999"])
  = Ok (Py.strip " 112-7 ").
Proof.
  apply get_order_id_after_first_label.
  - repeat constructor.
  - reflexivity.
Defined.

Lemma remove_char_absent (c : ascii) (s : string) :
  char_absent c (Py.remove_char c s) = true.
Proof.
  induction s as [|d s IH]; [reflexivity|]. simpl.
  destruct (Ascii.eqb c d) eqn:E; [exact IH|]. simpl. by rewrite E.
Qed.

Lemma remove_char_keeps_absent (c c' : ascii) (s : string) :
  char_absent c s = true → char_absent c (Py.remove_char c' s) = true.
Proof.
  induction s as [|d s IH]; [reflexivity|]. simpl.
  intros [Hd Hs]%andb_true_iff.
  destruct (Ascii.eqb c' d); [by apply IH|]. simpl. by rewrite Hd, IH.
Qed.

(** The total that enters the file name holds no dollar sign and no comma,
    whatever the text of the span was. *)
Theorem extracted_total_normalised (card : order_card) (d : date)
  (total orderid : string) :
  extract card = Ok (Some (d, total, orderid)) →
  char_absent "$" total = true ∧ char_absent "," total = true.
Proof.
  unfold extract, mbind, res_mbind, res_bind.
  repeat case_match; intros [=]; subst. split.
  - apply remove_char_keeps_absent, remove_char_absent.
  - apply remove_char_absent.
Qed.

Lemma extracted_total_normalised_witness :
  char_absent "$" "10.00" = true ∧ char_absent "," "10.00" = true.
Proof.
  apply (extracted_total_normalised Scenario.card_A (Date 2022 6 1) "10.00" "A").
  reflexivity.
Defined.

Lemma extract_short_card (card : order_card) :
  (length (spans card) < 5)%nat → extract card = Raise index_out_of_range.
Proof.
  intros H. unfold extract, item.
  by rewrite (lookup_ge_None_2 (spans card) 4) by lia.
Qed.

Section CoverageProperties.

Context (urljoin_ref : string → string → string) (context : browser).

(** An order card with fewer than five spans has no status span: reading
    it raises [IndexError], which nothing catches; the traversal and the
    year loop end there and the years that remain are not visited. *)
Theorem short_card_aborts_run (c : config) (card : order_card) (w : world) :
  (length (spans card) < 5)%nat →
  process_order urljoin_ref context c card w = (w, Raise index_out_of_range)
  ∧ ∀ y years rest later,
      listing context y = (card :: rest) :: later →
      year_loop urljoin_ref context c (y :: years) w
      = (w, Raise index_out_of_range).
Proof.
  intros H. apply extraction_error_aborts. by apply extract_short_card.
Qed.

(** ** What the two methods return *)

Ltac run_method H :=
  unfold download_invoice, download_summary, get_last_four, mbind, M_bind,
    bind, lift, new_page, close_page, write_file, print, pure in H.

(** When [download_invoice] returns [SUCCESS], the response was a success
    with "pdf" in its content type, and the file holds the body of the
    response as it came; nothing was printed. *)
Theorem download_invoice_success (url : string) (card : order_card)
  (file_name : string) (w w' : world) :
  download_invoice urljoin_ref context url card file_name w = (w', Ok SUCCESS) →
  ∃ href resp body,
    invoice_href card = Ok href
    ∧ request_get context (urljoin urljoin_ref url href) = Ok resp
    ∧ resp_ok resp = true
    ∧ Py.contains "pdf" (Py.lower (default EmptyString (resp_content_type resp)))
      = true
    ∧ resp_body resp = Ok body
    ∧ files w' = <[file_name := body]> (files w)
    ∧ stdout w' = stdout w.
Proof.
  intros H. run_method H. repeat case_match; simplify_eq.
  match goal with
  | Hc : negb _ || negb _ = false |- _ =>
      apply orb_false_iff in Hc as [?%negb_false_iff ?%negb_false_iff]
  end.
  eexists _, _, _. by repeat split.
Qed.

(** Any other outcome of [download_invoice] is [FAILURE], never
    [SKIPPED]: the response was no success or its content type has no
    "pdf"; no file is written and one line is printed. *)
Theorem download_invoice_failure (url : string) (card : order_card)
  (file_name : string) (w w' : world) (o : ret) :
  download_invoice urljoin_ref context url card file_name w = (w', Ok o) →
  o ≠ SUCCESS →
  o = FAILURE
  ∧ files w' = files w
  ∧ ∃ href resp line,
      invoice_href card = Ok href
      ∧ request_get context (urljoin urljoin_ref url href) = Ok resp
      ∧ (resp_ok resp = false
         ∨ Py.contains "pdf"
             (Py.lower (default EmptyString (resp_content_type resp))) = false)
      ∧ stdout w' = stdout w ++ [line].
Proof.
  intros H Ho. run_method H. repeat case_match; simplify_eq.
  split; [done|]. split; [done|].
  match goal with
  | Hc : negb _ || negb _ = true |- _ =>
      apply orb_true_iff in Hc as [Hc%negb_true_iff|Hc%negb_true_iff]
  end; eexists _, _, _; repeat split; eauto.
Qed.

Lemma all_in_cards : bool_decide ("all" ∈ cards) = true.
Proof. apply bool_decide_eq_true_2. by left. Qed.

(** [download_summary] returns only [SUCCESS]: with the list [cards] as
    it stands the last four digits are never looked up and nothing is
    skipped; the file then holds the rendering of the page. *)
Theorem download_summary_only_success (url : string) (card : order_card)
  (file_name : string) (w w' : world) (o : ret) :
  download_summary urljoin_ref context url card file_name w = (w', Ok o) →
  o = SUCCESS
  ∧ ∃ href rendered,
      summary_href card = Ok href
      ∧ pdf context (urljoin urljoin_ref url href) = Ok rendered
      ∧ files w' = <[file_name := rendered]> (files w)
      ∧ stdout w' = stdout w.
Proof.
  intros H. unfold download_summary in H. rewrite all_in_cards in H.
  run_method H. simpl in H.
  repeat case_match; simplify_eq.
  split; [done|]. eexists _, _. by repeat split.
Qed.

End CoverageProperties.

(** ** The files *)

Lemma keeps_files_bind {A B} (m : M A) (k : A → M B) :
  keeps_files m → (∀ a, keeps_files (k a)) → keeps_files (m ≫= k).
Proof.
  intros Hm Hk w p content Hp. rewrite bind_eq. specialize (Hm w p content Hp).
  destruct (m w) as [w' [a|e]]; simpl in *; [|done]. by apply Hk.
Qed.

Lemma keeps_files_pure {A} (a : A) : keeps_files (pure a).
Proof. by intros w p content. Qed.

Lemma keeps_files_lift {A} (r : res A) : keeps_files (lift r).
Proof. by intros w p content. Qed.

Lemma keeps_files_print (line : string) : keeps_files (print line).
Proof. by intros w p content. Qed.

Lemma only_prints_bind {A B} (m : M A) (k : A → M B) :
  only_prints m → (∀ a, only_prints (k a)) → only_prints (m ≫= k).
Proof.
  intros Hm Hk w. rewrite bind_eq. specialize (Hm w).
  destruct (m w) as [w' [a|e]]; simpl in *; [|done].
  destruct Hm as (Hj & Hf & Ho), (Hk a w') as (Hj' & Hf' & Ho').
  by rewrite Hj', Hf', Ho'.
Qed.

Lemma only_prints_pure {A} (a : A) : only_prints (pure a).
Proof. by intros w. Qed.

Lemma only_prints_lift {A} (r : res A) : only_prints (lift r).
Proof. by intros w. Qed.

Lemma only_prints_print (line : string) : only_prints (print line).
Proof. by intros w. Qed.

Lemma ltb_date_lt (a b : date) : Datetime.ltb a b = true ↔ date_lt a b.
Proof.
  unfold Datetime.ltb, Datetime.compare, date_lt.
  destruct (Z.compare_spec (year a) (year b));
    destruct (Z.compare_spec (month a) (month b));
    destruct (Z.compare_spec (day a) (day b)); split; intros; try done; lia.
Qed.

Lemma reversed_window_empty (s e d : date) :
  Datetime.gtb s e = true → Datetime.gtb d e = false →
  Datetime.ltb d s = false → False.
Proof.
  unfold Datetime.gtb. intros Hse%ltb_date_lt Hde Hds.
  assert (¬ date_lt e d) as H1 by (rewrite <- ltb_date_lt; congruence).
  assert (¬ date_lt d s) as H2 by (rewrite <- ltb_date_lt; congruence).
  unfold date_lt in *. lia.
Qed.

Section FilesProperties.

Context (urljoin_ref : string → string → string) (context : browser).

Lemma call_files (m : method) (url : string) (card : order_card)
  (file_name : string) (w : world) :
  (files (call urljoin_ref context m url card file_name w).1 = files w
   ∨ ∃ content, files (call urljoin_ref context m url card file_name w).1
                = <[file_name := content]> (files w))
  ∧ ((call urljoin_ref context m url card file_name w).2 = Ok SUCCESS →
     ∃ content, files (call urljoin_ref context m url card file_name w).1
                = <[file_name := content]> (files w)).
Proof.
  destruct m;
    unfold call, download_invoice, download_summary, get_last_four, mbind,
      M_bind, bind, lift, new_page, close_page, write_file, print, pure;
    repeat case_match; simplify_eq; simpl in *; simplify_eq;
    split; eauto; intros; simplify_eq.
Qed.

Lemma acquire_files (ms : list method) (url : string) (card : order_card)
  (file_name : string) (w : world) :
  ∃ w' calls,
    acquire urljoin_ref context ms url card file_name w = (w', Ok tt)
    ∧ journal w' = journal w ++ map (call_event file_name) calls
    ∧ (files w' = files w
       ∨ ∃ content, files w' = <[file_name := content]> (files w))
    ∧ (∀ m, last calls = Some (m, Ok SUCCESS) →
            ∃ content, files w' = <[file_name := content]> (files w)).
Proof.
  revert w. induction ms as [|m rest IH]; intros w.
  { exists w, []. rewrite app_nil_r. split; [done|]. split; [done|].
    split; [by left|done]. }
  cbn [acquire]. rewrite bind_eq. unfold try.
  pose proof (keeps_journal_call urljoin_ref context m url card file_name w) as Hj.
  pose proof (call_files m url card file_name w) as [Hf Hs].
  destruct (call urljoin_ref context m url card file_name w) as [w1 r].
  simpl in Hj, Hf, Hs. rewrite bind_eq. cbn [observe].
  set (w2 := World (files w1) (open_pages w1) (next_page w1) (stdout w1)
               (journal w1 ++ [EvCall m file_name r])).
  assert (∀ w', (files w' = files w1
                 ∨ ∃ content, files w' = <[file_name := content]> (files w1)) →
                files w' = files w
                ∨ ∃ content, files w' = <[file_name := content]> (files w))
    as Hcomp.
  { intros w' [->|[c2 ->]]; [exact Hf|]. right.
    destruct Hf as [->|[c1 ->]]; [by eexists|].
    exists c2. by rewrite insert_insert_eq. }
  assert (∀ w', (∃ content, files w' = <[file_name := content]> (files w1)) →
                ∃ content, files w' = <[file_name := content]> (files w))
    as Hcomp'.
  { intros w' [c2 ->]. destruct Hf as [->|[c1 ->]]; [by eexists|].
    exists c2. by rewrite insert_insert_eq. }
  destruct r as [[| |]|e].
  - eexists _, [(m, Ok SUCCESS)]. split; [reflexivity|]. simpl.
    rewrite Hj. split; [done|]. split; [exact Hf|]. intros _ _. by apply Hs.
  - destruct (IH w2) as (w' & calls & Hrun & Hjw & Hfw & Hsw).
    exists w', ((m, Ok FAILURE) :: calls). split; [exact Hrun|].
    rewrite Hjw. subst w2. simpl. rewrite Hj, <- app_assoc. split; [done|].
    split; [by apply Hcomp|].
    intros m' Hlast. apply Hcomp', (Hsw m').
    destruct calls; [done|exact Hlast].
  - exists w2, [(m, Ok SKIPPED)]. split; [reflexivity|]. subst w2. simpl.
    rewrite Hj. split; [done|]. split; [exact Hf|]. by intros m' [=].
  - rewrite bind_eq. cbn [print].
    match goal with
    | |- context [acquire _ _ rest url card file_name ?w3] =>
        destruct (IH w3) as (w' & calls & Hrun & Hjw & Hfw & Hsw)
    end.
    exists w', ((m, Raise e) :: calls). split; [exact Hrun|].
    rewrite Hjw. subst w2. simpl in *. rewrite Hj, <- app_assoc. split; [done|].
    split; [by apply Hcomp|].
    intros m' Hlast. apply Hcomp', (Hsw m').
    destruct calls; [done|exact Hlast].
Qed.

(** For an order inside the window whose file is missing, the download
    folder changes at most by the file of that order: the files afterwards
    are the files before, with or without a file at the path of the order;
    and when the last call of the chain returned [SUCCESS], that file is
    there. *)
Theorem acquisition_writes_only_its_file (c : config) (card : order_card)
  (d : date) (total orderid : string) (w : world) :
  extract card = Ok (Some (d, total, orderid)) →
  in_window c d →
  files w !! artifact_path (target_dir c) d total orderid = None →
  ∃ w' calls,
    process_order urljoin_ref context c card w = (w', Ok NextOrder)
    ∧ journal w'
      = journal w
        ++ EvIsFile (artifact_path (target_dir c) d total orderid)
        :: map (call_event (artifact_path (target_dir c) d total orderid)) calls
    ∧ (files w' = files w
       ∨ ∃ content,
           files w'
           = <[artifact_path (target_dir c) d total orderid := content]> (files w))
    ∧ (∀ m, last calls = Some (m, Ok SUCCESS) →
            ∃ content,
              files w'
              = <[artifact_path (target_dir c) d total orderid := content]>
                  (files w)).
Proof.
  intros He [Hgt Hlt] Hf.
  rewrite (process_order_extracted urljoin_ref context c card d total orderid w He).
  cbv zeta. rewrite Hgt, Hlt. cbn [isfile].
  rewrite bool_decide_eq_false_2 by (rewrite Hf; by intros [? [=]]).
  rewrite bind_eq.
  match goal with
  | |- context [acquire _ _ ?ms ?u card ?f ?w1] =>
      destruct (acquire_files ms u card f w1) as (w' & calls & Hrun & Hj & Hfw & Hsw)
  end.
  exists w', calls. rewrite Hrun. split; [reflexivity|].
  rewrite Hj. cbn [journal files] in *. by rewrite <- app_assoc.
Qed.

Lemma process_order_keeps_files (c : config) (card : order_card) :
  keeps_files (process_order urljoin_ref context c card).
Proof.
  intros w p content Hp.
  destruct (extract card) as [[[[d total] orderid]|]|e] eqn:He.
  - rewrite (process_order_extracted urljoin_ref context c card d total orderid w He).
    cbv zeta. destruct (Datetime.gtb d (end_date c)); [done|].
    destruct (Datetime.ltb d (start_date c)); [done|].
    cbn [isfile]. case_bool_decide as Hex; [done|].
    rewrite bind_eq.
    match goal with
    | |- context [acquire _ _ ?ms ?u card ?f ?w1] =>
        destruct (acquire_files ms u card f w1) as (w' & calls & Hrun & _ & Hfw & _)
    end.
    rewrite Hrun. cbn [files fst pure] in *.
    destruct Hfw as [->|(body & ->)]; [done|].
    rewrite lookup_insert_ne; [done|]. intros <-. apply Hex. by eexists.
  - unfold process_order. rewrite bind_eq. unfold lift. by rewrite He.
  - unfold process_order. rewrite bind_eq. unfold lift. by rewrite He.
Qed.

Lemma order_loop_keeps_files (c : config) (order_cards : list order_card) :
  keeps_files (order_loop urljoin_ref context c order_cards).
Proof.
  induction order_cards as [|card rest IH]; [apply keeps_files_pure|].
  cbn [order_loop]. apply keeps_files_bind; [apply process_order_keeps_files|].
  intros []; [exact IH|apply keeps_files_pure].
Qed.

Lemma page_loop_keeps_files (c : config) (later : list (list order_card))
  (shown : list order_card) :
  keeps_files (page_loop urljoin_ref context c shown later).
Proof.
  revert shown. induction later as [|p ps IH]; intros shown; cbn [page_loop];
    (apply keeps_files_bind; [apply order_loop_keeps_files|]);
    intros []; try apply keeps_files_pure;
    (apply keeps_files_bind; [apply keeps_files_print|]); intros _.
  - apply keeps_files_pure.
  - apply IH.
Qed.

Lemma year_loop_keeps_files (c : config) (years : list string) :
  keeps_files (year_loop urljoin_ref context c years).
Proof.
  induction years as [|y rest IH]; [apply keeps_files_pure|].
  cbn [year_loop]. apply keeps_files_bind; [|by intros _].
  unfold year_traversal, traverse.
  destruct (listing context y); apply page_loop_keeps_files.
Qed.

(** A run never deletes or rewrites a file that exists when it starts:
    whatever the account shows and whatever the methods do, each such file
    is there afterwards with the content it had. *)
Theorem run_keeps_existing_files (a : args) (now_year : Z) (url cwd : string)
  (w : world) (p content : string) :
  files w !! p = Some content →
  files (run urljoin_ref context a now_year url cwd w).1 !! p = Some content.
Proof.
  revert w p content. change (keeps_files (run urljoin_ref context a now_year url cwd)).
  unfold run. apply keeps_files_bind; [apply keeps_files_lift|].
  intros window. cbv zeta. apply keeps_files_bind; [apply keeps_files_lift|].
  intros years. apply year_loop_keeps_files.
Qed.

(** An invoice type that is neither "invoice" nor "summary", case
    ignored, configures no method at all: an order whose file is missing
    is tested for existence and left, without a call, a file or a line of
    output. *)
Theorem unknown_type_acquires_nothing (c : config) (invoice_type : string)
  (card : order_card) (d : date) (total orderid : string) (w : world) :
  methods c = download_method invoice_type →
  Py.lower invoice_type ≠ "invoice" →
  Py.lower invoice_type ≠ "summary" →
  extract card = Ok (Some (d, total, orderid)) →
  in_window c d →
  files w !! artifact_path (target_dir c) d total orderid = None →
  process_order urljoin_ref context c card w
  = (World (files w) (open_pages w) (next_page w) (stdout w)
       (journal w ++ [EvIsFile (artifact_path (target_dir c) d total orderid)]),
     Ok NextOrder).
Proof.
  intros Hm Hi Hs He [Hgt Hlt] Hf.
  rewrite (process_order_extracted urljoin_ref context c card d total orderid w He).
  cbv zeta. rewrite Hgt, Hlt. cbn [isfile].
  rewrite bool_decide_eq_false_2 by (rewrite Hf; by intros [? [=]]).
  rewrite Hm. unfold download_method.
  apply String.eqb_neq in Hi, Hs. by rewrite Hi, Hs.
Qed.

(** ** A window whose start is after its end *)

Lemma process_order_reversed (c : config) (card : order_card) (w : world) :
  Datetime.gtb (start_date c) (end_date c) = true →
  ∃ r, process_order urljoin_ref context c card w = (w, r).
Proof.
  intros Hrev.
  destruct (extract card) as [[[[d total] orderid]|]|e] eqn:He.
  - rewrite (process_order_extracted urljoin_ref context c card d total orderid w He).
    cbv zeta. destruct (Datetime.gtb d (end_date c)) eqn:Hgt; [by eexists|].
    destruct (Datetime.ltb d (start_date c)) eqn:Hlt; [by eexists|].
    destruct (reversed_window_empty _ _ _ Hrev Hgt Hlt).
  - unfold process_order. rewrite bind_eq. unfold lift. rewrite He. by eexists.
  - unfold process_order. rewrite bind_eq. unfold lift. rewrite He. by eexists.
Qed.

Lemma order_loop_reversed (c : config) (order_cards : list order_card) (w : world) :
  Datetime.gtb (start_date c) (end_date c) = true →
  ∃ r, order_loop urljoin_ref context c order_cards w = (w, r).
Proof.
  intros Hrev. induction order_cards as [|card rest IH]; [by eexists|].
  rewrite order_loop_cons.
  destruct (process_order_reversed c card w Hrev) as [[[|]|e] ->]; eauto.
Qed.

Lemma page_loop_reversed (c : config) (later : list (list order_card))
  (shown : list order_card) :
  Datetime.gtb (start_date c) (end_date c) = true →
  only_prints (page_loop urljoin_ref context c shown later).
Proof.
  intros Hrev. revert shown.
  induction later as [|p ps IH]; intros shown w; rewrite page_loop_eq;
    destruct (order_loop_reversed c shown w Hrev) as [[[|]|e] ->]; try done.
  destruct (IH p (print "Navigating to next page..." w).1) as (Hj & Hf & Ho).
  by rewrite Hj, Hf, Ho.
Qed.

Lemma year_loop_reversed (c : config) (years : list string) :
  Datetime.gtb (start_date c) (end_date c) = true →
  only_prints (year_loop urljoin_ref context c years).
Proof.
  intros Hrev. induction years as [|y rest IH]; [apply only_prints_pure|].
  cbn [year_loop]. apply only_prints_bind; [|by intros _].
  unfold year_traversal, traverse.
  destruct (listing context y); by apply page_loop_reversed.
Qed.

(** When the window resolves with its start after its end, the run goes
    through the selected years without testing a file, calling a method,
    writing a file or opening a page: every order is either skipped as too
    recent or ends its year as too old. *)
Theorem reversed_window_downloads_nothing (a : args) (now_year : Z)
  (url cwd : string) (s e : date) (w : world) :
  resolve_window a now_year = Ok (s, e) →
  Datetime.gtb s e = true →
  journal (run urljoin_ref context a now_year url cwd w).1 = journal w
  ∧ files (run urljoin_ref context a now_year url cwd w).1 = files w
  ∧ open_pages (run urljoin_ref context a now_year url cwd w).1 = open_pages w.
Proof.
  intros Hres Hrev. unfold run. rewrite bind_eq. unfold lift. rewrite Hres.
  cbv zeta. apply only_prints_bind; [apply only_prints_lift|].
  intros years. by apply year_loop_reversed.
Qed.

End FilesProperties.

(** ** Reading the date window *)

Lemma fmap_bind_list {A B C} (f : B → C) (g : A → list B) (l : list A) :
  f <$> (l ≫= g) = l ≫= (λ x, f <$> g x).
Proof.
  induction l as [|x l IH]; [reflexivity|].
  by rewrite !bind_cons, fmap_app, IH.
Qed.

Lemma re_Y_digits (a b c d : ascii) (tail : string) :
  Py.isdigit a = true → Py.isdigit b = true →
  Py.isdigit c = true → Py.isdigit d = true →
  Datetime.re_Y (String a (String b (String c (String d tail))))
  = [(String a (String b (String c (String d EmptyString))), tail)].
Proof.
  intros Ha Hb Hc Hd.
  unfold Datetime.re_Y, Datetime.re_seq, Datetime.re_digit, Datetime.re_class.
  cbn. rewrite Ha. cbn. rewrite Hb. cbn. rewrite Hc. cbn. rewrite Hd. reflexivity.
Qed.

Lemma strptime_compact_digits (a b c d : ascii) (tail : string) :
  Py.isdigit a = true → Py.isdigit b = true →
  Py.isdigit c = true → Py.isdigit d = true →
  Datetime.strptime_compact (String a (String b (String c (String d tail))))
  = Datetime.finish (String a (String b (String c (String d tail)))) "%Y%m%d"
      ((λ x, ((Py.int (String a (String b (String c (String d EmptyString)))),
               x.1.1, x.1.2), x.2)) <$> month_day tail).
Proof.
  intros Ha Hb Hc Hd. unfold Datetime.strptime_compact.
  rewrite re_Y_digits by done. rewrite bind_singleton. f_equal.
  unfold month_day. rewrite fmap_bind_list.
  apply list_bind_ext; [|done]. intros m.
  rewrite fmap_bind_list. by apply list_bind_ext.
Qed.

Lemma reads_month_day_all :
  forallb (λ m, forallb (reads_month_day m) (seqZ 1 31)) (seqZ 1 12) = true.
Proof. vm_compute. reflexivity. Qed.

Lemma month_day_pad (m d : Z) :
  1 ≤ m ≤ 12 → 1 ≤ d ≤ 31 →
  ∃ more, month_day (Py.pad2 m +:+ Py.pad2 d) = ((m, d), EmptyString) :: more.
Proof.
  intros Hm Hd. pose proof reads_month_day_all as H.
  rewrite forallb_forall in H.
  specialize (H m). rewrite forallb_forall in H.
  assert (reads_month_day m d = true) as Hr.
  { apply H; apply list_elem_of_In, elem_of_seqZ; lia. }
  unfold reads_month_day in Hr.
  destruct (month_day (Py.pad2 m +:+ Py.pad2 d)) as [|[[m' d'] [|? ?]] more];
    try done. simpl in Hr.
  apply andb_true_iff in Hr as [->%Z.eqb_eq ->%Z.eqb_eq]. by exists more.
Qed.

Lemma make_of_valid (d : date) :
  valid_date d → Datetime.make (year d) (month d) (day d) = Ok d.
Proof.
  intros (Hy & Hm & Hd). unfold Datetime.make.
  assert ((1 <=? year d) && (year d <=? 9999) = true) as ->
    by (apply andb_true_iff; rewrite !Z.leb_le; lia).
  assert ((1 <=? month d) && (month d <=? 12) = true) as ->
    by (apply andb_true_iff; rewrite !Z.leb_le; lia).
  assert ((1 <=? day d)
          && (day d <=? Datetime.days_in_month (year d) (month d)) = true) as ->
    by (apply andb_true_iff; rewrite !Z.leb_le; lia).
  by destruct d.
Qed.

Lemma pad2_range_digits (n : Z) :
  0 ≤ n < 100 →
  Py.isdigit (Py.digit_char (n / 10)) = true
  ∧ Py.isdigit (Py.digit_char (n mod 10)) = true.
Proof.
  intros H. split; apply isdigit_digit_char.
  - split; [apply Z.div_pos|apply Z.lt_succ_r, Z.div_lt_upper_bound]; lia.
  - pose proof (Z.mod_pos_bound n 10). lia.
Qed.

(** A date written as [%Y%m%d] is read back by [strptime]. *)
Lemma strptime_compact_date (d : date) :
  valid_date d → Datetime.strptime_compact (compact_date d) = Ok d.
Proof.
  intros Hv. pose proof Hv as (Hy & Hm & Hd).
  pose proof (days_in_month_le (year d) (month d)) as Hle.
  assert (0 ≤ year d / 100 < 100) as H1
    by (split; [apply Z.div_pos|apply Z.div_lt_upper_bound]; lia).
  assert (0 ≤ year d mod 100 < 100) as H2 by (apply Z.mod_pos_bound; lia).
  destruct (pad2_range_digits _ H1) as [Da Db], (pad2_range_digits _ H2) as [Dc Dd].
  change (compact_date d)
    with (String (Py.digit_char (year d / 100 / 10))
            (String (Py.digit_char ((year d / 100) mod 10))
               (String (Py.digit_char (year d mod 100 / 10))
                  (String (Py.digit_char ((year d mod 100) mod 10))
                     (Py.pad2 (month d) +:+ Py.pad2 (day d)))))).
  rewrite strptime_compact_digits by done.
  destruct (month_day_pad (month d) (day d)) as [more ->]; [lia..|].
  change (String (Py.digit_char (year d / 100 / 10)) _) with (Py.pad4 (year d)) at 2.
  cbn [fmap list_fmap fst snd Datetime.finish].
  rewrite int_pad4 by lia. by apply make_of_valid.
Qed.

Lemma all_digits_pad4 (y : Z) : 0 ≤ y < 10000 → Py.all_digits (Py.pad4 y) = true.
Proof.
  intros H.
  assert (0 ≤ y / 100 < 100) as H1
    by (split; [apply Z.div_pos|apply Z.div_lt_upper_bound]; lia).
  assert (0 ≤ y mod 100 < 100) as H2 by (apply Z.mod_pos_bound; lia).
  unfold Py.pad4. rewrite all_digits_app.
  by rewrite (proj1 (pad2_digits _ H1)), (proj1 (pad2_digits _ H2)).
Qed.

Lemma all_digits_compact_date (d : date) :
  valid_date d → Py.all_digits (compact_date d) = true.
Proof.
  intros (Hy & Hm & Hd). pose proof (days_in_month_le (year d) (month d)).
  unfold compact_date. rewrite !all_digits_app, all_digits_pad4 by lia.
  rewrite (proj1 (pad2_digits (month d) ltac:(lia))).
  by rewrite (proj1 (pad2_digits (day d) ltac:(lia))).
Qed.

Lemma all_digits_char_absent (c : ascii) (s : string) :
  Py.isdigit c = false → Py.all_digits s = true → char_absent c s = true.
Proof.
  intros Hc. induction s as [|d s IH]; [reflexivity|]. simpl.
  intros [Hd Hs]%andb_true_iff. rewrite (IH Hs), andb_true_r.
  apply negb_true_iff, Ascii.eqb_neq. intros <-. congruence.
Qed.

Lemma split_absent (c : ascii) (s : string) :
  char_absent c s = true → Py.split c s = [s].
Proof.
  induction s as [|d s IH]; [reflexivity|]. simpl.
  intros [Hd Hs]%andb_true_iff. rewrite (IH Hs).
  apply negb_true_iff in Hd. by rewrite Hd.
Qed.

Lemma split_length (c : ascii) (s : string) :
  length (Py.split c s) = S (count_char c s).
Proof.
  induction s as [|d s IH]; [reflexivity|]. simpl.
  destruct (Py.split c s) as [|p ps]; [done|].
  destruct (Ascii.eqb c d); simpl in *; lia.
Qed.

Lemma split_app (c : ascii) (a b : string) :
  char_absent c a = true →
  Py.split c (a +:+ String c b) = a :: Py.split c b.
Proof.
  induction a as [|d a IH].
  - intros _. change (EmptyString +:+ String c b) with (String c b).
    cbn [Py.split]. pose proof (split_length c b) as Hl.
    destruct (Py.split c b); [done|]. by rewrite Ascii.eqb_refl.
  - simpl. intros [Hd Ha]%andb_true_iff.
    change (String d a +:+ String c b) with (String d (a +:+ String c b)).
    cbn [Py.split]. rewrite (IH Ha). apply negb_true_iff in Hd. by rewrite Hd.
Qed.

Lemma str_int_pad4_all :
  forallb (λ n, String.eqb (Py.str_int n) (Py.pad4 n)) (seqZ 1000 9000) = true.
Proof. vm_compute. reflexivity. Qed.

Lemma str_int_pad4 (n : Z) : 1000 ≤ n ≤ 9999 → Py.str_int n = Py.pad4 n.
Proof.
  intros H. pose proof str_int_pad4_all as Hall.
  rewrite forallb_forall in Hall. apply String.eqb_eq, Hall.
  apply list_elem_of_In, elem_of_seqZ. lia.
Qed.

Lemma pad4_not_placeholder (y : Z) : String.eqb (Py.pad4 y) "<CUR_YEAR>" = false.
Proof.
  apply String.eqb_neq. intros H. apply (f_equal String.length) in H. discriminate.
Qed.

Lemma resolve_window_texts (a : args) (now_year : Z) (d1 d2 : date) :
  valid_date d1 → valid_date d2 →
  window_texts a now_year = Ok (compact_date d1, compact_date d2) →
  resolve_window a now_year = Ok (d1, d2).
Proof.
  intros H1 H2 Ht. unfold resolve_window, mbind, res_mbind, res_bind.
  rewrite Ht. cbn [fst snd]. by rewrite !strptime_compact_date.
Qed.

Lemma valid_first_day (y : Z) : 1 ≤ y ≤ 9999 → valid_date (Date y 1 1).
Proof. intros H. unfold valid_date, Datetime.days_in_month. simpl. lia. Qed.

Lemma valid_last_day (y : Z) : 1 ≤ y ≤ 9999 → valid_date (Date y 12 31).
Proof. intros H. unfold valid_date, Datetime.days_in_month. simpl. lia. Qed.

(** With no date range, [--year=YYYY] for a year from 0001 to 9999 on
    four digits gives the window from the first of January to the
    thirty-first of December of that year. *)
Theorem year_option_window (a : args) (now_year y : Z) :
  1 ≤ y ≤ 9999 →
  truthy (arg_date_range a) = false →
  arg_year a = Py.pad4 y →
  resolve_window a now_year = Ok (Date y 1 1, Date y 12 31).
Proof.
  intros Hy Hr Ha.
  apply resolve_window_texts; [by apply valid_first_day|by apply valid_last_day|].
  unfold window_texts. by rewrite Hr, Ha, pad4_not_placeholder.
Qed.

Lemma year_option_window_witness :
  resolve_window (Args (Some EmptyString) "0987" "summary") 2026
  = Ok (Date 987 1 1, Date 987 12 31).
Proof. apply (year_option_window _ 2026 987); [lia|reflexivity|reflexivity]. Defined.

(** With neither a range nor a year given, the window is the current
    year, from the first of January to the thirty-first of December (for a
    clock between the years 1000 and 9999). *)
Theorem default_window_is_current_year (a : args) (now_year : Z) :
  1000 ≤ now_year ≤ 9999 →
  truthy (arg_date_range a) = false →
  arg_year a = "<CUR_YEAR>" →
  resolve_window a now_year = Ok (Date now_year 1 1, Date now_year 12 31).
Proof.
  intros Hy Hr Ha.
  apply resolve_window_texts;
    [apply valid_first_day; lia|apply valid_last_day; lia|].
  unfold window_texts. rewrite Hr, Ha.
  change (negb (String.eqb "<CUR_YEAR>" "<CUR_YEAR>")) with false.
  cbv iota. by rewrite str_int_pad4.
Qed.

Lemma default_window_is_current_year_witness :
  resolve_window (Args None "<CUR_YEAR>" "invoice") 2026
  = Ok (Date 2026 1 1, Date 2026 12 31).
Proof.
  apply (default_window_is_current_year _ 2026); [lia|reflexivity|reflexivity].
Defined.

(** Every pair of valid dates written as YYYYMMDD-YYYYMMDD is resolved to
    exactly that pair, in that order. *)
Theorem date_range_round_trip (a : args) (now_year : Z) (d1 d2 : date) :
  valid_date d1 → valid_date d2 →
  arg_date_range a = Some (compact_date d1 +:+ "-" +:+ compact_date d2) →
  resolve_window a now_year = Ok (d1, d2).
Proof.
  intros H1 H2 Ha. apply resolve_window_texts; [done..|].
  unfold window_texts. rewrite Ha.
  assert (truthy (Some (compact_date d1 +:+ "-" +:+ compact_date d2)) = true)
    as -> by reflexivity.
  cbn [default id].
  change ("-" +:+ compact_date d2) with (String "-" (compact_date d2)).
  rewrite split_app, split_absent; [done|..];
    apply all_digits_char_absent; by try apply all_digits_compact_date.
Qed.

Lemma date_range_round_trip_witness :
  resolve_window
    (Args (Some (compact_date (Date 2024 2 29) +:+ "-" +:+ compact_date (Date 2024 11 5)))
       "<CUR_YEAR>" "invoice") 2026
  = Ok (Date 2024 2 29, Date 2024 11 5).
Proof.
  apply date_range_round_trip; [| |reflexivity];
    repeat split; vm_compute; congruence.
Defined.

(** A date range that does not hold exactly one dash (a single date, or
    dates written with dashes inside) fails with a [ValueError] at the
    unpacking, before any date is parsed. *)
Theorem date_range_needs_one_dash (a : args) (now_year : Z) (text : string) :
  arg_date_range a = Some text →
  text ≠ EmptyString →
  count_char "-" text ≠ 1%nat →
  ∃ msg, resolve_window a now_year = Raise (ValueError msg)
         ∧ window_texts a now_year = Raise (ValueError msg).
Proof.
  intros Ha Hne Hc.
  assert (∃ msg, window_texts a now_year = Raise (ValueError msg)) as [msg Hm].
  { unfold window_texts. rewrite Ha.
    assert (truthy (Some text) = true) as -> by by destruct text.
    cbn [default id]. pose proof (split_length "-" text) as Hl.
    unfold unpack2. destruct (Py.split "-" text) as [|x [|y [|z l]]];
      simpl in Hl; eauto; lia. }
  exists msg. split; [|done].
  unfold resolve_window, mbind, res_mbind, res_bind. by rewrite Hm.
Qed.

Lemma date_range_needs_one_dash_witness :
  ∃ msg,
    resolve_window (Args (Some "2022-01-01-2022-12-31") "<CUR_YEAR>" "invoice") 2026
    = Raise (ValueError msg)
    ∧ window_texts (Args (Some "2022-01-01-2022-12-31") "<CUR_YEAR>" "invoice") 2026
      = Raise (ValueError msg).
Proof.
  apply (date_range_needs_one_dash _ 2026 "2022-01-01-2022-12-31").
  - reflexivity.
  - discriminate.
  - vm_compute. lia.
Defined.

(** ** The last four digits *)

Lemma substring_head (n : nat) (s : string) :
  String.length (String.substring 0 n s) = n →
  ∃ post, s = String.substring 0 n s +:+ post.
Proof.
  revert s. induction n as [|n IH]; intros s.
  - intros _. exists s. by destruct s.
  - destruct s as [|c s]; [done|]. cbn [String.substring String.length].
    intros [= H]. destruct (IH s H) as [post Hp]. exists post.
    change (String c (String.substring 0 n s) +:+ post)
      with (String c (String.substring 0 n s +:+ post)).
    by rewrite <- Hp.
Qed.

Lemma search_four_digits_found (s found : string) :
  search_four_digits s = Some found →
  String.length found = 4%nat ∧ Py.all_digits found = true
  ∧ ∃ pre post, s = pre +:+ found +:+ post.
Proof.
  induction s as [|c s IH]; [done|]. cbn [search_four_digits]. cbv zeta.
  destruct ((String.length (String.substring 0 4 (String c s)) =? 4)%nat
            && Py.all_digits (String.substring 0 4 (String c s))) eqn:E.
  - intros [= <-]. apply andb_true_iff in E as [El%Nat.eqb_eq Ed].
    do 2 (split; [done|]).
    destruct (substring_head 4 (String c s) El) as [post Hp].
    by exists EmptyString, post.
  - intros H. destruct (IH H) as (Hl & Hd & pre & post & ->).
    do 2 (split; [done|]). by exists (String c pre), post.
Qed.

Lemma scan_ending_found (texts : list (res string)) (found : string) :
  scan_ending texts = Ok (Some found) →
  String.length found = 4%nat ∧ Py.all_digits found = true.
Proof.
  induction texts as [|[t|e] texts IH]; [done| |done]. simpl.
  destruct (search_four_digits t) as [r|] eqn:E; [|exact IH].
  intros [= <-]. by destruct (search_four_digits_found _ _ E) as (? & ? & _).
Qed.

(** [get_last_four] never raises and changes nothing but the output.
    It returns the trimmed text of the test id when that can be read;
    otherwise its answer is four digits, or "unknown" when the page says
    the payment details cannot be shown, or "none" after printing that no
    digits were found. *)
Theorem get_last_four_answers (page : summary_view) (w : world) :
  ∃ answer w1,
    Payment.get_last_four page w = (w1, Ok answer)
    ∧ ((∃ t, method_details_number page = Ok t ∧ answer = Py.strip t ∧ w1 = w)
       ∨ ((∃ e, method_details_number page = Raise e)
          ∧ ((String.length answer = 4%nat ∧ Py.all_digits answer = true ∧ w1 = w)
             ∨ (answer = "unknown" ∧ w1 = w
                ∧ ∃ n, unable_to_display page = Ok (S n))
             ∨ (answer = "none"
                ∧ w1 = World (files w) (open_pages w) (next_page w)
                         (stdout w ++ ["No last four digits found."])
                         (journal w))))).
Proof.
  unfold Payment.get_last_four.
  destruct (method_details_number page) as [t|e0].
  { exists (Py.strip t), w. split; [done|]. left. by exists t. }
  destruct (match pmts_component page with
            | Ok (Some t) => search_four_digits (Py.strip t)
            | _ => None
            end) as [found|] eqn:E1.
  { exists found, w. split; [done|]. right. split; [by eexists|]. left.
    repeat case_match; simplify_eq.
    by destruct (search_four_digits_found _ _ ltac:(eassumption)) as (? & ? & _). }
  destruct (match ending_in_spans page with
            | Ok texts => match scan_ending texts with
                          | Ok o => o
                          | Raise _ => None
                          end
            | Raise _ => None
            end) as [found|] eqn:E2.
  { exists found, w. split; [done|]. right. split; [by eexists|]. left.
    repeat case_match; simplify_eq.
    all: by destruct (scan_ending_found _ _ ltac:(eassumption)). }
  destruct (unable_to_display page) as [[|n]|e3] eqn:E3.
  - eexists "none", _. split; [reflexivity|]. right. split; [by eexists|].
    right. right. by split.
  - exists "unknown", w. split; [done|]. right. split; [by eexists|].
    right. left. repeat split. by exists n.
  - eexists "none", _. split; [reflexivity|]. right. split; [by eexists|].
    right. right. by split.
Qed.

(** ** The environment file *)

Lemma find_env_nearest (exists_ : list string → bool) (n i : nat)
  (p : list string) :
  (i < n)%nat →
  exists_ (ancestor i p ++ [".env"]) = true →
  (∀ j, (j < i)%nat → exists_ (ancestor j p ++ [".env"]) = false) →
  find_env exists_ n p = Some (ancestor i p ++ [".env"]).
Proof.
  revert i p. induction n as [|n IH]; intros i p Hi Hex Hnear; [lia|].
  cbn [find_env]. cbv zeta. destruct i as [|i].
  - simpl in Hex. by rewrite Hex.
  - pose proof (Hnear 0%nat ltac:(lia)) as H0. simpl in H0. rewrite H0.
    apply (IH i (parent p)); [lia|done|].
    intros j Hj. apply (Hnear (S j)). lia.
Qed.

Lemma find_env_none (exists_ : list string → bool) (n : nat) (p : list string) :
  (∀ j, (j < n)%nat → exists_ (ancestor j p ++ [".env"]) = false) →
  find_env exists_ n p = None.
Proof.
  revert p. induction n as [|n IH]; intros p Hno; [done|].
  cbn [find_env]. cbv zeta.
  pose proof (Hno 0%nat ltac:(lia)) as H0. simpl in H0. rewrite H0.
  apply IH. intros j Hj. apply (Hno (S j)). lia.
Qed.

(** When the credentials are not both set, the file loaded is the [.env]
    of the nearest directory among the working directory and its first
    three parents, and its variables are added to the environment. *)
Theorem load_env_nearest_file (environ : gmap string string) (cwd : list string)
  (exists_ : list string → bool)
  (dotenv_values : list string → gmap string string) (i : nat) :
  truthy (environ !! "AMAZON_EMAIL") && truthy (environ !! "AMAZON_PASSWORD")
  = false →
  (i < 4)%nat →
  exists_ (ancestor i cwd ++ [".env"]) = true →
  (∀ j, (j < i)%nat → exists_ (ancestor j cwd ++ [".env"]) = false) →
  load_env_if_needed environ cwd exists_ dotenv_values
  = (environ ∪ dotenv_values (ancestor i cwd ++ [".env"]),
     ["Loading environment variables from "
      +:+ path_str (ancestor i cwd ++ [".env"])]).
Proof.
  intros Hc Hi Hex Hnear. unfold load_env_if_needed. cbv zeta. rewrite Hc.
  by rewrite (find_env_nearest exists_ 4 i cwd Hi Hex Hnear).
Qed.

(** A [.env] that lies more than three parents above the working
    directory is not looked for: when none of the four nearest directories
    has one, the environment is left as it is. *)
Theorem load_env_looks_three_parents_up (environ : gmap string string)
  (cwd : list string) (exists_ : list string → bool)
  (dotenv_values : list string → gmap string string) :
  truthy (environ !! "AMAZON_EMAIL") && truthy (environ !! "AMAZON_PASSWORD")
  = false →
  (∀ j, (j < 4)%nat → exists_ (ancestor j cwd ++ [".env"]) = false) →
  load_env_if_needed environ cwd exists_ dotenv_values
  = (environ, ["No .env file found in current directory or parent directories"]).
Proof.
  intros Hc Hno. unfold load_env_if_needed. cbv zeta. rewrite Hc.
  by rewrite (find_env_none exists_ 4 cwd Hno).
Qed.

(** Whatever is found, a variable that the environment already has keeps
    its value: the file only adds the variables that are missing. *)
Theorem load_env_keeps_set_variables (environ : gmap string string)
  (cwd : list string) (exists_ : list string → bool)
  (dotenv_values : list string → gmap string string) (k v : string) :
  environ !! k = Some v →
  (load_env_if_needed environ cwd exists_ dotenv_values).1 !! k = Some v.
Proof.
  intros Hk. unfold load_env_if_needed, load_dotenv. cbv zeta.
  repeat case_match; simpl; try done.
  by apply lookup_union_Some_l.
Qed.

(** ** The further properties on the concrete cases *)

Lemma short_card_aborts_run_witness :
  process_order Scenario.join Scenario.account Scenario.config_2022
    Cases.short_card Scenario.empty_world
  = (Scenario.empty_world, Raise index_out_of_range).
Proof.
  apply (short_card_aborts_run Scenario.join Scenario.account
           Scenario.config_2022 Cases.short_card Scenario.empty_world).
  simpl. lia.
Defined.

Lemma download_invoice_success_witness :
  ∃ href resp body,
    invoice_href Scenario.card_A = Ok href
    ∧ request_get Scenario.account (urljoin Scenario.join Scenario.base_url href)
      = Ok resp
    ∧ resp_body resp = Ok body.
Proof.
  destruct (download_invoice_success Scenario.join Scenario.account
              Scenario.base_url Scenario.card_A Scenario.path_A
              Scenario.empty_world
              (download_invoice Scenario.join Scenario.account Scenario.base_url
                 Scenario.card_A Scenario.path_A Scenario.empty_world).1)
    as (href & resp & body & H1 & H2 & _ & _ & H5 & _).
  - vm_compute. reflexivity.
  - by exists href, resp, body.
Defined.

Lemma download_invoice_failure_witness :
  files (download_invoice Scenario.join Cases.html_site Scenario.base_url
           Scenario.card_A Scenario.path_A Scenario.empty_world).1
  = files Scenario.empty_world.
Proof.
  destruct (download_invoice_failure Scenario.join Cases.html_site
              Scenario.base_url Scenario.card_A Scenario.path_A
              Scenario.empty_world
              (download_invoice Scenario.join Cases.html_site Scenario.base_url
                 Scenario.card_A Scenario.path_A Scenario.empty_world).1
              FAILURE)
    as (_ & Hf & _).
  - vm_compute. reflexivity.
  - discriminate.
  - exact Hf.
Defined.

Lemma download_summary_only_success_witness :
  SUCCESS = SUCCESS
  ∧ ∃ href rendered,
      summary_href Scenario.card_A = Ok href
      ∧ pdf Scenario.account (urljoin Scenario.join Scenario.base_url href)
        = Ok rendered.
Proof.
  destruct (download_summary_only_success Scenario.join Scenario.account
              Scenario.base_url Scenario.card_A Scenario.path_A
              Scenario.empty_world
              (download_summary Scenario.join Scenario.account Scenario.base_url
                 Scenario.card_A Scenario.path_A Scenario.empty_world).1
              SUCCESS)
    as (Ho & href & rendered & H1 & H2 & _).
  - vm_compute. reflexivity.
  - split; [exact Ho|]. by exists href, rendered.
Defined.

Lemma pages_closed_on_return_witness :
  open_pages (call Scenario.join Scenario.account by_invoice Scenario.base_url
                Scenario.card_A Scenario.path_A Scenario.empty_world).1
  = open_pages Scenario.empty_world.
Proof.
  apply (pages_closed_on_return Scenario.join Scenario.account by_invoice
           Scenario.base_url Scenario.card_A Scenario.path_A
           Scenario.empty_world _ SUCCESS).
  - constructor.
  - vm_compute. reflexivity.
Defined.

Lemma acquisition_writes_only_its_file_witness :
  ∃ w1 (calls : list (method * res ret)),
    process_order Scenario.join Scenario.offline Scenario.config_2022
      Scenario.card_A Scenario.empty_world = (w1, Ok NextOrder)
    ∧ (files w1 = files Scenario.empty_world
       ∨ ∃ content,
           files w1
           = <[artifact_path (target_dir Scenario.config_2022)
                 (Date 2022 6 1) "10.00" "A" := content]>
               (files Scenario.empty_world)).
Proof.
  destruct (acquisition_writes_only_its_file Scenario.join Scenario.offline
              Scenario.config_2022 Scenario.card_A (Date 2022 6 1) "10.00" "A"
              Scenario.empty_world)
    as (w1 & calls & Hp & _ & Hf & _).
  - reflexivity.
  - split; reflexivity.
  - reflexivity.
  - by exists w1, calls.
Defined.

Lemma run_keeps_existing_files_witness :
  files (run Scenario.join Scenario.account Scenario.year_2022 2026
           Scenario.base_url "/home/u" Scenario.world_with_A).1
  !! Scenario.path_A = Some "%PDF-invoice".
Proof.
  apply (run_keeps_existing_files Scenario.join Scenario.account
           Scenario.year_2022 2026 Scenario.base_url "/home/u"
           Scenario.world_with_A Scenario.path_A "%PDF-invoice").
  vm_compute. reflexivity.
Defined.

Lemma unknown_type_acquires_nothing_witness :
  process_order Scenario.join Scenario.account Cases.config_pdf
    Scenario.card_A Scenario.empty_world
  = (World ∅ [] 0 [] [EvIsFile Scenario.path_A], Ok NextOrder).
Proof.
  apply (unknown_type_acquires_nothing Scenario.join Scenario.account
           Cases.config_pdf "pdf" Scenario.card_A (Date 2022 6 1) "10.00" "A"
           Scenario.empty_world).
  - reflexivity.
  - vm_compute. congruence.
  - vm_compute. congruence.
  - reflexivity.
  - split; reflexivity.
  - reflexivity.
Defined.

Lemma reversed_window_downloads_nothing_witness :
  journal (run Scenario.join Scenario.account Scenario.reversed_range 2026
             Scenario.base_url "/home/u" Scenario.empty_world).1
  = journal Scenario.empty_world.
Proof.
  apply (reversed_window_downloads_nothing Scenario.join Scenario.account
           Scenario.reversed_range 2026 Scenario.base_url "/home/u"
           (Date 2022 12 31) (Date 2022 1 1) Scenario.empty_world).
  - reflexivity.
  - reflexivity.
Defined.

Lemma load_env_nearest_file_witness :
  load_env_if_needed Cases.environ_email Cases.project_dir
    Cases.env_in_work_and_home Cases.env_file_vars
  = (Cases.environ_email
     ∪ Cases.env_file_vars (ancestor 2 Cases.project_dir ++ [".env"]),
     ["Loading environment variables from "
      +:+ path_str (ancestor 2 Cases.project_dir ++ [".env"])]).
Proof.
  apply (load_env_nearest_file Cases.environ_email Cases.project_dir
           Cases.env_in_work_and_home Cases.env_file_vars 2).
  - vm_compute. reflexivity.
  - lia.
  - vm_compute. reflexivity.
  - intros [|[|j]] Hj; [vm_compute; reflexivity..|lia].
Defined.

Lemma load_env_looks_three_parents_up_witness :
  load_env_if_needed Cases.environ_email Cases.project_dir
    Cases.env_in_home Cases.env_file_vars
  = (Cases.environ_email,
     ["No .env file found in current directory or parent directories"]).
Proof.
  apply load_env_looks_three_parents_up.
  - vm_compute. reflexivity.
  - intros [|[|[|[|j]]]] Hj; [vm_compute; reflexivity..|lia].
Defined.

Lemma load_env_keeps_set_variables_witness :
  (load_env_if_needed Cases.environ_email Cases.project_dir
     Cases.env_in_work_and_home Cases.env_file_vars).1
  !! "AMAZON_EMAIL" = Some "me@example.com".
Proof.
  apply load_env_keeps_set_variables. vm_compute. reflexivity.
Defined.

(** ** The path of the artifact *)

Section PathProperties.

Context (urljoin_ref : string → string → string) (context : browser).

(** C8, as amended: the path of the artifact is a function of the output
    directory, the date, the total and the order identifier alone:
    <output-dir>/<date>_<total>_amazon_<orderId>.pdf, where <date> is the
    year, the month on two digits and the day on two digits, joined by
    dashes.  In any run, whatever the world and the browser, the body of
    the order loop tests this very path for existence and, when the file
    is missing, runs the chain of methods on this very path.  From the
    year 1000 on the date is the ISO date: ten characters, the year on
    four digits, and its digits read back as the year, month and day. *)
Theorem artifact_path_deterministic (c : config) (card : order_card) (d : date)
  (total orderid : string) (w : world) :
  extract card = Ok (Some (d, total, orderid)) →
  in_window c d →
  let path :=
    target_dir c +:+ "/"
    +:+ (Py.str_int (year d) +:+ "-" +:+ Py.pad2 (month d) +:+ "-"
         +:+ Py.pad2 (day d))
    +:+ "_" +:+ total +:+ "_amazon_" +:+ orderid +:+ ".pdf" in
  process_order urljoin_ref context c card w
  = (if bool_decide (is_Some (files w !! path)) then
       (World (files w) (open_pages w) (next_page w)
          (stdout w ++ ["File [" +:+ path +:+ "] already exists"])
          (journal w ++ [EvIsFile path]),
        Ok NextOrder)
     else
       ((run_chain (call urljoin_ref context) (methods c) (url c) card path
           (tested path w)).1,
        Ok NextOrder))
  ∧ (1000 ≤ year d →
     Py.str_int (year d) = Py.pad4 (year d)
     ∧ String.length (Datetime.strftime_iso d) = 10%nat
     ∧ Py.int (Py.pad4 (year d)) = year d
     ∧ Py.int (Py.pad2 (month d)) = month d
     ∧ Py.int (Py.pad2 (day d)) = day d).
Proof.
  intros He Hw path.
  change path with (artifact_path (target_dir c) d total orderid). clear path.
  split.
  - case_bool_decide as Hex.
    + by apply process_order_existing.
    + apply process_order_missing; [done..|].
      destruct (files w !! artifact_path (target_dir c) d total orderid) eqn:E;
        [|done]. exfalso. apply Hex. by eexists.
  - intros Hy. destruct (extract_valid card d total orderid He) as (Hy' & Hm & Hd).
    pose proof (days_in_month_le (year d) (month d)).
    assert (Py.str_int (year d) = Py.pad4 (year d)) as Hs
      by (apply str_int_pad4; lia).
    split; [exact Hs|]. split.
    { unfold Datetime.strftime_iso. rewrite Hs. reflexivity. }
    split; [apply int_pad4; lia|]. split; apply int_pad2; lia.
Qed.

End PathProperties.

Lemma artifact_path_deterministic_witness :
  process_order Scenario.join Scenario.account Scenario.config_2022
    Scenario.card_A Scenario.world_with_A
  = (World (files Scenario.world_with_A) [] 0
       ["File [" +:+ Scenario.path_A +:+ "] already exists"]
       [EvIsFile Scenario.path_A],
     Ok NextOrder).
Proof.
  destruct (artifact_path_deterministic Scenario.join Scenario.account
              Scenario.config_2022 Scenario.card_A (Date 2022 6 1) "10.00" "A"
              Scenario.world_with_A) as [Hp _].
  - reflexivity.
  - split; reflexivity.
  - rewrite Hp. reflexivity.
Defined.

(** C8 as stated fails: for an order of the year 999, inside a window
    that reaches back to it, the date in the path is not the ISO date: the
    year is written on three digits, and the file is made under that
    name. *)
Lemma artifact_path_before_year_1000 :
  extract Cases.card_999 = Ok (Some (Date 999 6 1, "10.00", "A"))
  ∧ in_window Cases.config_medieval (Date 999 6 1)
  ∧ artifact_path (target_dir Cases.config_medieval) (Date 999 6 1) "10.00" "A"
    = "/home/u/downloads/999-06-01_10.00_amazon_A.pdf"
  ∧ Datetime.strftime_iso (Date 999 6 1) = "999-06-01"
  ∧ files (process_order Scenario.join Scenario.account Cases.config_medieval
             Cases.card_999 Scenario.empty_world).1
    !! "/home/u/downloads/999-06-01_10.00_amazon_A.pdf"
    = Some "%PDF-invoice".
Proof. repeat split; vm_compute; reflexivity. Qed.
